(** * Wavetable generator of the Vapo2 synth (generate_wavetables.py)

    A shallow embedding of [drumlogue/vapo2/resources/generate_wavetables.py]:
    the legacy waveform extractor, the signal converter, the periodic
    resampler, the anti-aliasing integrator, the guard appender and the bank
    assembler, followed by the properties of the pipeline.

    Conventions of the embedding.
    - A NumPy [uint8] or [int16] array is a [list Z]; a [float64] array is a
      [list Qc].  Binary floating point is idealised as exact rational
      arithmetic: rounding of intermediate results is not modelled.
    - Python exceptions are the [Err] results of the [result] monad.
    - [print] appends a line to the standard output carried in [world];
      files are looked up and written in the file store of [world]. *)

From Stdlib Require Import ZArith QArith Qcanon List Bool Lia.
From Stdlib Require Import Ascii String DecimalString.
Import ListNotations.

Local Open Scope Z_scope.

(** ** Configuration (module-level constants of the script) *)

Definition PPG_SAMPLES : nat := 64.
Definition TARGET_SAMPLES : nat := 256.
Definition GUARD_SAMPLES : nat := 4.
Definition WAVES_PER_BANK : nat := 8.
Definition NUM_BANKS : nat := 16.

(** ** Exceptions *)

Inductive exception : Type :=
| ValueError
| IndexError
| FileNotFoundError
| FloatingPointError
| OverflowError.

Inductive result (A : Type) : Type :=
| Ok (a : A)
| Err (e : exception).

Arguments Ok {A} a.
Arguments Err {A} e.

(** ** NumPy primitives used by the script *)

Module np.

(** Exact image of an integer among the floats. *)
Definition of_Z (z : Z) : Qc := Q2Qc (inject_Z z).

Definition maximum (x y : Qc) : Qc :=
  match (x ?= y)%Qc with Lt => y | _ => x end.

Definition minimum (x y : Qc) : Qc :=
  match (x ?= y)%Qc with Gt => y | _ => x end.

(** [np.clip(a, lo, hi)] is [minimum(maximum(a, lo), hi)], element-wise. *)
Definition clip1 (lo hi : Z) (x : Qc) : Qc :=
  minimum (maximum x (of_Z lo)) (of_Z hi).

Definition clip (a : list Qc) (lo hi : Z) : list Qc := map (clip1 lo hi) a.

(** [a.astype(np.float64)] on an integer array. *)
Definition astype_float64 (a : list Z) : list Qc := map of_Z a.

(** The float-to-integer cast truncates toward zero.  The script applies it
    to clipped arrays only, where the result fits 16 bits. *)
Definition trunc (x : Qc) : Z := Z.quot (Qnum x) (Zpos (Qden x)).

Definition astype_int16 (a : list Qc) : list Z := map trunc a.

(** [np.array(values, dtype=np.uint8)] on a list of Python integers raises
    [OverflowError] when one of them is out of the bounds of [uint8], and
    keeps the integers otherwise.  (This is NumPy 2; the releases before it
    raise on integers beyond the C integers only and keep the low byte of the
    others.  Both agree on integers from 0 to 255.) *)
Definition fits_uint8 (v : Z) : bool := (0 <=? v) && (v <=? 255).

Definition array_uint8 (values : list Z) : result (list Z) :=
  if forallb fits_uint8 values then Ok values else Err OverflowError.

Definition Qcabs (x : Qc) : Qc :=
  match (x ?= 0)%Qc with Lt => (- x)%Qc | _ => x end.

Definition abs (a : list Qc) : list Qc := map Qcabs a.

(** [np.max] of a non-empty array ([np.max] of an empty one raises). *)
Definition max (a : list Qc) : option Qc :=
  match a with
  | [] => None
  | x :: r => Some (fold_left maximum r x)
  end.

(** [np.cumsum]: running sums, left to right. *)
Fixpoint cumsum_from (acc : Qc) (a : list Qc) : list Qc :=
  match a with
  | [] => []
  | x :: r => (acc + x)%Qc :: cumsum_from (acc + x)%Qc r
  end.

Definition cumsum (a : list Qc) : list Qc := cumsum_from 0%Qc a.

(** [np.arange(0, num)] as floats. *)
Definition arange (num : nat) : list Qc :=
  map (fun i => of_Z (Z.of_nat i)) (seq 0 num).

(** Overwrite the last element, [y[-1] = v]. *)
Definition set_last (y : list Qc) (v : Qc) : list Qc :=
  match y with
  | [] => []
  | _ => removelast y ++ [v]
  end.

(** [np.linspace(start, stop, num, endpoint)]: [num] evenly spaced values;
    with [endpoint] the last one is [stop] itself. *)
Definition linspace (start stop : Qc) (num : nat) (endpoint : bool) : list Qc :=
  let div := if endpoint then Nat.pred num else num in
  let delta := (stop - start)%Qc in
  let y :=
    match div with
    | O => map (fun i => (i * delta + start)%Qc) (arange num)
    | S _ =>
        let step := (delta / of_Z (Z.of_nat div))%Qc in
        map (fun i => (i * step + start)%Qc) (arange num)
    end in
  if endpoint && (1 <? num)%nat then set_last y stop else y.

End np.

(** ** Signal converter *)

(** [convert_to_signed16]: 8-bit unsigned (centre 128) to 16-bit signed. *)
Definition convert_to_signed16 (wave : list Z) : list Z :=
  let signed :=
    map (fun v => ((v - np.of_Z 128) * np.of_Z 256)%Qc) (np.astype_float64 wave) in
  np.astype_int16 (np.clip signed (-32767) 32767).

(** ** Standard output and the file store *)

(** The part of the process state the script touches. *)
Record world : Type := World {
  files : string -> option string;
  stdout : list string
}.

(** A computation runs in a world and ends with a value or an exception; what
    it printed or wrote before an exception stays in the world. *)
Definition M (A : Type) : Type := world -> result A * world.

Definition ret {A} (a : A) : M A := fun w => (Ok a, w).

Definition raise {A} (e : exception) : M A := fun w => (Err e, w).

Definition bind {A B} (c : M A) (k : A -> M B) : M B :=
  fun w =>
    match c w with
    | (Ok a, w') => k a w'
    | (Err e, w') => (Err e, w')
    end.

Definition lift {A} (r : result A) : M A := fun w => (r, w).

Notation "x <- c ;; k" := (bind c (fun x => k))
  (at level 61, c at next level, right associativity).
Notation "c ;;; k" := (bind c (fun _ => k))
  (at level 61, right associativity).

Definition print (line : string) : M unit :=
  fun w => (Ok tt, World (files w) (stdout w ++ [line])).

Definition exists_file (path : string) : M bool :=
  fun w => (Ok (match files w path with Some _ => true | None => false end), w).

Definition read_file (path : string) : M string :=
  fun w =>
    match files w path with
    | Some content => (Ok content, w)
    | None => (Err FileNotFoundError, w)
    end.

(** [open(path, 'w')] followed by the writes: the file holds exactly [text]. *)
Definition write_file (path text : string) : M unit :=
  fun w =>
    (Ok tt,
     World (fun p => if String.eqb p path then Some text else files w p)
           (stdout w)).

(** ** Python built-ins used by the script *)

Module py.

(** [l[i]] with Python's negative indices. *)
Definition getitem {A} (l : list A) (i : Z) : result A :=
  let n := Z.of_nat (List.length l) in
  let j := if i <? 0 then i + n else i in
  if (0 <=? j) && (j <? n) then
    match nth_error l (Z.to_nat j) with
    | Some a => Ok a
    | None => Err IndexError
    end
  else Err IndexError.

(** [l[i:j]] for [0 <= i <= j]. *)
Definition slice {A} (l : list A) (i j : nat) : list A :=
  firstn (j - i) (skipn i l).

(** [range(0, stop, step)] for a positive [step]. *)
Definition range_step (stop step : nat) : list nat :=
  map (fun k => (k * step)%nat) (seq 0 ((stop + step - 1) / step)).

(** [str(n)] of an integer. *)
Definition str (z : Z) : string := NilZero.string_of_int (Z.to_int z).

Fixpoint spaces (n : nat) : string :=
  match n with
  | O => EmptyString
  | S k => String " " (spaces k)
  end.

(** The format [{v:6d}]: decimal, right-aligned in six columns. *)
Definition fmt_6d (z : Z) : string :=
  let s := str z in
  (spaces (6 - String.length s) ++ s)%string.

(** [repr] of a list of integers, as an f-string prints it. *)
Definition repr_list (l : list Z) : string :=
  ("[" ++ String.concat ", " (map str l) ++ "]")%string.

Definition lower_ascii (c : ascii) : ascii :=
  let n := nat_of_ascii c in
  if (65 <=? n)%nat && (n <=? 90)%nat then ascii_of_nat (n + 32) else c.

(** [s.lower()] on ASCII text. *)
Fixpoint lower (s : string) : string :=
  match s with
  | EmptyString => EmptyString
  | String c r => String (lower_ascii c) (lower r)
  end.

Definition is_digit (c : ascii) : bool :=
  let n := nat_of_ascii c in (48 <=? n)%nat && (n <=? 57)%nat.

(** [int(s)] on a run of decimal digits (runs are taken to be within the
    interpreter's limit on the length of a decimal integer string). *)
Definition int (digits : list ascii) : Z :=
  fold_left (fun acc c => 10 * acc + (Z.of_nat (nat_of_ascii c) - 48)) digits 0.

(** [s.split('\n')]. *)
Fixpoint split_lines_from (cur : list ascii) (s : list ascii) : list (list ascii) :=
  match s with
  | [] => [rev cur]
  | c :: r =>
      if Ascii.eqb c "010"%char then rev cur :: split_lines_from [] r
      else split_lines_from (c :: cur) r
  end.

Definition split_lines (s : list ascii) : list (list ascii) :=
  split_lines_from [] s.

End py.

(** ** The regular expressions of the extractor *)

Module re.

(** The characters [\s] matches in a text pattern, among the first 256:
    tab to carriage return, the four separators 28 to 31, the space, the next
    line control 133 and the no-break space 160. *)
Definition is_space (c : ascii) : bool :=
  let n := nat_of_ascii c in
  (n =? 32)%nat || ((9 <=? n)%nat && (n <=? 13)%nat)
  || ((28 <=? n)%nat && (n <=? 31)%nat) || (n =? 133)%nat || (n =? 160)%nat.

Fixpoint strip_prefix (p s : list ascii) : option (list ascii) :=
  match p, s with
  | [], _ => Some s
  | c :: p', d :: s' => if Ascii.eqb c d then strip_prefix p' s' else None
  | _ :: _, [] => None
  end.

(** The text that follows the first occurrence of [lit]. *)
Fixpoint after_first (lit s : list ascii) : option (list ascii) :=
  match strip_prefix lit s with
  | Some r => Some r
  | None =>
      match s with
      | [] => None
      | _ :: s' => after_first lit s'
      end
  end.

Fixpoint skip_spaces (s : list ascii) : list ascii :=
  match s with
  | c :: r => if is_space c then skip_spaces r else s
  | [] => []
  end.

(** The longest prefix without a semicolon, and what follows it. *)
Fixpoint span_not_semicolon (s : list ascii) : list ascii * list ascii :=
  match s with
  | c :: r =>
      if Ascii.eqb c ";"%char then ([], s)
      else let (run, rest) := span_not_semicolon r in (c :: run, rest)
  | [] => ([], [])
  end.

(** The tail [=\s*\{([^;]+)\};] of the pattern, anchored at the head of [s]:
    the group is a non-empty run without semicolon that is followed by a
    closing brace and the first semicolon. *)
Definition match_assignment (s : list ascii) : option (list ascii) :=
  match s with
  | c :: s1 =>
      if Ascii.eqb c "="%char then
        match skip_spaces s1 with
        | b :: s2 =>
            if Ascii.eqb b "{"%char then
              let (run, rest) := span_not_semicolon s2 in
              match rest, rev run with
              | _ :: _, e :: g :: g' =>
                  if Ascii.eqb e "}"%char then Some (rev (g :: g')) else None
              | _, _ => None
              end
            else None
        | [] => None
        end
      else None
  | [] => None
  end.

(** The lazy [.*?] (with DOTALL) tries the positions from left to right. *)
Fixpoint first_assignment (s : list ascii) : option (list ascii) :=
  match match_assignment s with
  | Some g => Some g
  | None =>
      match s with
      | [] => None
      | _ :: s' => first_assignment s'
      end
  end.

(** [re.search(r'ppg_waveforms_data\[\].*?=\s*\{([^;]+)\};', content,
    re.DOTALL)] and [match.group(1)]. *)
Definition search_data_section (content : list ascii) : option (list ascii) :=
  match after_first (list_ascii_of_string "ppg_waveforms_data[]") content with
  | Some r => first_assignment r
  | None => None
  end.

(** [re.sub(r'//.*$', '', line)] on a line without line break. *)
Fixpoint sub_comment (line : list ascii) : list ascii :=
  match line with
  | c :: r =>
      match r with
      | d :: _ =>
          if Ascii.eqb c "/"%char && Ascii.eqb d "/"%char then []
          else c :: sub_comment r
      | [] => [c]
      end
  | [] => []
  end.

(** [re.findall(r'\d+', line)]: the maximal runs of digits. *)
Fixpoint findall_digits_from (cur line : list ascii) : list (list ascii) :=
  match line with
  | c :: r =>
      if py.is_digit c then findall_digits_from (c :: cur) r
      else
        match cur with
        | [] => findall_digits_from [] r
        | _ => rev cur :: findall_digits_from [] r
        end
  | [] =>
      match cur with
      | [] => []
      | _ => [rev cur]
      end
  end.

Definition findall_digits (line : list ascii) : list (list ascii) :=
  findall_digits_from [] line.

End re.

(** ** Legacy waveform extractor *)

(** Lines 98-105: the numbers of the data section, comments removed. *)
Definition extract_values (data_section : list ascii) : list Z :=
  fold_left
    (fun values line =>
       let line := re.sub_comment line in
       let numbers := re.findall_digits line in
       values ++ map py.int numbers)
    (py.split_lines data_section) [].

(** Lines 110-111: the body of the loop that cuts the values into 64-sample
    waveforms, for the start index [i]. *)
Definition append_waveform (values : list Z) (waveforms : list (list Z))
    (i : nat) : result (list (list Z)) :=
  if (i + PPG_SAMPLES <=? List.length values)%nat then
    match np.array_uint8 (py.slice values i (i + PPG_SAMPLES)) with
    | Ok wave => Ok (waveforms ++ [wave])
    | Err e => Err e
    end
  else Ok waveforms.

(** Lines 108-111: the loop over [range(0, len(values), PPG_SAMPLES)]. *)
(** One turn of the loop; an exception raised in an earlier turn has ended
    it. *)
Definition loop_turn (values : list Z) (waveforms : result (list (list Z)))
    (i : nat) : result (list (list Z)) :=
  match waveforms with
  | Ok waveforms => append_waveform values waveforms i
  | Err e => Err e
  end.

Definition split_waveforms (values : list Z) : result (list (list Z)) :=
  fold_left (loop_turn values)
            (py.range_step (List.length values) PPG_SAMPLES) (Ok []).

Definition parse_ppg_waveforms (filepath : string) : M (list (list Z)) :=
  content <- read_file filepath ;;
  match re.search_data_section (list_ascii_of_string content) with
  | None => raise ValueError
  | Some data_section =>
      let values := extract_values data_section in
      waveforms <- lift (split_waveforms values) ;;
      print ("Parsed " ++ py.str (Z.of_nat (List.length waveforms))
             ++ " waveforms from PPG data")%string ;;;
      ret waveforms
  end.

(** ** SciPy's cubic interpolant

    [scipy.interpolate.interp1d(x, y, kind='cubic')] fits the cubic spline
    through the points with not-a-knot end conditions.  The fit is given here
    in exact arithmetic by the second derivatives at the knots ([x] is taken
    to be strictly increasing, as the resampler passes it). *)

Module scipy.

Local Open Scope Qc_scope.

Definition row : Type := (Qc * Qc * Qc * Qc)%type.

(** One equation per interior knot:
    [h0*m0 + 2*(h0+h1)*m1 + h1*m2 = 6*((y2-y1)/h1 - (y1-y0)/h0)]. *)
Fixpoint interior_rows (x y : list Qc) : list row :=
  match x, y with
  | x0 :: xr, y0 :: yr =>
      match xr, yr with
      | x1 :: x2 :: _, y1 :: y2 :: _ =>
          let h0 := x1 - x0 in
          let h1 := x2 - x1 in
          (h0, np.of_Z 2 * (h0 + h1), h1,
           np.of_Z 6 * ((y2 - y1) / h1 - (y1 - y0) / h0))
            :: interior_rows xr yr
      | _, _ => []
      end
  | _, _ => []
  end.

(** Not-a-knot at the second knot: [m0 = (1 + r)*m1 - r*m2], [r = h0/h1]. *)
Definition fold_first (rows : list row) : list row :=
  match rows with
  | (a, b, c, d) :: rest =>
      let r := a / c in (0, b + a * (1 + r), c - a * r, d) :: rest
  | [] => []
  end.

(** Not-a-knot at the last but one knot, symmetrically. *)
Fixpoint fold_last (rows : list row) : list row :=
  match rows with
  | [(a, b, c, d)] =>
      let s := c / a in [(a - c * s, b + c * (1 + s), 0, d)]
  | r :: rest => r :: fold_last rest
  | [] => []
  end.

(** Elimination and back substitution on the tridiagonal system. *)
Fixpoint eliminate (cp dp : Qc) (rows : list row) : list (Qc * Qc) :=
  match rows with
  | (a, b, c, d) :: rest =>
      let den := b - a * cp in
      let cp' := c / den in
      let dp' := (d - a * dp) / den in
      (cp', dp') :: eliminate cp' dp' rest
  | [] => []
  end.

Fixpoint back_substitute (e : list (Qc * Qc)) : list Qc :=
  match e with
  | (cp, dp) :: rest =>
      match back_substitute rest with
      | m :: ms => (dp - cp * m) :: m :: ms
      | [] => [dp]
      end
  | [] => []
  end.

(** Second derivatives at all knots. *)
Definition moments (x y : list Qc) : list Qc :=
  let rows := interior_rows x y in
  let inner := back_substitute (eliminate 0 0 (fold_last (fold_first rows))) in
  match rows, inner, rev rows, rev inner with
  | (h0, _, h1, _) :: _, m1 :: m2 :: _, (k0, _, k1, _) :: _, n1 :: n2 :: _ =>
      let r := h0 / h1 in
      let s := k1 / k0 in
      ((1 + r) * m1 - r * m2) :: inner ++ [(1 + s) * n1 - s * n2]
  | _, _, _, _ => []
  end.

(** The cubic on the interval [[x0, x1]]. *)
Definition cubic (x0 x1 y0 y1 m0 m1 t : Qc) : Qc :=
  let h := x1 - x0 in
  let a := x1 - t in
  let b := t - x0 in
  m0 * a * a * a / (np.of_Z 6 * h) + m1 * b * b * b / (np.of_Z 6 * h)
  + (y0 / h - m0 * h / np.of_Z 6) * a + (y1 / h - m1 * h / np.of_Z 6) * b.

Definition leb (p q : Qc) : bool :=
  match p ?= q with Gt => false | _ => true end.

Fixpoint eval (x y m : list Qc) (t : Qc) : Qc :=
  match x, y, m with
  | x0 :: xr, y0 :: yr, m0 :: mr =>
      match xr, yr, mr with
      | x1 :: xr', y1 :: _, m1 :: _ =>
          match xr' with
          | [] => cubic x0 x1 y0 y1 m0 m1 t
          | _ :: _ =>
              if leb t x1 then cubic x0 x1 y0 y1 m0 m1 t
              else eval xr yr mr t
          end
      | _, _, _ => 0
      end
  | _, _, _ => 0
  end.

(** The fitted interpolant: its knots, values and second derivatives. *)
Record interpolant : Type := Interpolant {
  knots : list Qc;
  values : list Qc;
  second : list Qc
}.

(** The constructor raises on arrays of unequal length and on fewer than
    four points. *)
Definition interp1d_cubic (x y : list Qc) : result interpolant :=
  if negb (List.length x =? List.length y)%nat then Err ValueError
  else if (List.length x <? 4)%nat then Err ValueError
  else Ok (Interpolant x y (moments x y)).

(** A call [f(x_new)] raises when a point lies outside the knots. *)
Definition in_range (f : interpolant) (t : Qc) : bool :=
  match knots f with
  | x0 :: _ => leb x0 t && leb t (last (knots f) x0)
  | [] => false
  end.

Definition call (f : interpolant) (x_new : list Qc) : result (list Qc) :=
  if forallb (in_range f) x_new then
    Ok (map (eval (knots f) (values f) (second f)) x_new)
  else Err ValueError.

End scipy.

(** ** Periodic resampler *)

Definition interpolate_wave (wave : list Z) (target_samples : nat)
  : result (list Qc) :=
  let x_old := np.linspace 0%Qc 1%Qc (List.length wave) false in
  let x_new := np.linspace 0%Qc 1%Qc target_samples false in
  let wave_extended := wave ++ firstn 4 wave in
  let x_extended := x_old ++ map (fun x => (x + 1)%Qc) (firstn 4 x_old) in
  match scipy.interp1d_cubic x_extended (np.astype_float64 wave_extended) with
  | Ok f => scipy.call f x_new
  | Err e => Err e
  end.


(** ** Anti-aliasing integrator *)

(** Line 147: the cumulative sum. *)
Definition cumulative (wave : list Qc) : list Qc := np.cumsum wave.

(** Line 151: the ramp subtracted from the cumulative sum [integrated], whose
    last element is [last_value]. *)
Definition dc_ramp (integrated : list Qc) (last_value : Qc) : list Qc :=
  np.linspace 0%Qc last_value (List.length integrated) true.

(** Line 152: [integrated - dc_ramp], element by element. *)
Definition subtract (a b : list Qc) : list Qc :=
  map (fun p => (fst p - snd p)%Qc) (combine a b).

(** Lines 147-152: cumulative sum with the ramp removed. *)
Definition remove_drift (wave : list Qc) : result (list Qc) :=
  let integrated := cumulative wave in
  match py.getitem integrated (-1) with
  | Ok last_value => Ok (subtract integrated (dc_ramp integrated last_value))
  | Err e => Err e
  end.

(** A division by zero has no value among the rationals (NumPy warns and
    yields an infinity); it is reported as [FloatingPointError]. *)
Definition divide (a b : Qc) : result Qc :=
  if Qc_eq_bool b 0%Qc then Err FloatingPointError else Ok (a / b)%Qc.

(** Lines 155-157: scale the peak to 30000, unless the peak is zero. *)
Definition normalize (integrated : list Qc) : result (list Qc) :=
  match np.max (np.abs integrated) with
  | None => Err ValueError
  | Some max_val =>
      match (max_val ?= 0)%Qc with
      | Gt =>
          match divide (np.of_Z 30000) max_val with
          | Ok k => Ok (map (fun v => (v * k)%Qc) integrated)
          | Err e => Err e
          end
      | _ => Ok integrated
      end
  end.

Definition integrate_wave (wave : list Qc) : result (list Z) :=
  match remove_drift wave with
  | Err e => Err e
  | Ok integrated =>
      match normalize integrated with
      | Err e => Err e
      | Ok integrated =>
          Ok (np.astype_int16 (np.clip integrated (-32767) 32767))
      end
  end.

(** ** Guard appender *)

Definition add_guard_samples (wave : list Z) (num_guard : nat) : list Z :=
  wave ++ firstn num_guard wave.

(** ** Output formatting *)

Definition nl : string := String "010"%char EmptyString.
Definition dquote : string := String (ascii_of_nat 34) EmptyString.

Section Formatting.

Local Open Scope string_scope.

(** [format_wave_array]: a waveform as a C array, ten samples a line. *)
Definition format_wave_array (name : string) (wave : list Z)
    (samples_per_line : nat) : string :=
  let values := wave in
  let lines :=
    fold_left
      (fun lines i =>
         let chunk := py.slice values i (i + samples_per_line) in
         let line := "    " ++ String.concat ", " (map py.fmt_6d chunk) in
         let line :=
           if (i + samples_per_line <? List.length values)%nat
           then line ++ "," else line in
         (lines ++ [line])%list)
      (py.range_step (List.length values) samples_per_line)
      ["static const int16_t " ++ name ++ "[WT_SAMPLES_PER_WAVE] = {"] in
  String.concat nl (lines ++ ["};"])%list.

(** The bank selections, in the order of the dictionary. *)
Definition BANK_SELECTIONS : list (string * list Z) :=
  [ ("UPPER_WT", [0; 1; 2; 3; 4; 5; 6; 7]%Z);
    ("RESONANT1", [8; 9; 10; 11; 12; 13; 14; 15]%Z);
    ("RESONANT2", [16; 17; 18; 19; 20; 21; 22; 23]%Z);
    ("MELLOW", [24; 25; 26; 27; 28; 29; 30; 31]%Z);
    ("BRIGHT", [32; 33; 34; 35; 36; 37; 38; 39]%Z);
    ("HARSH", [40; 41; 42; 43; 44; 45; 46; 47]%Z);
    ("CLIPPER", [48; 49; 50; 51; 52; 53; 54; 55]%Z);
    ("SYNC", [56; 57; 58; 59; 60; 61; 62; 63]%Z);
    ("PWM", [64; 65; 66; 67; 68; 69; 70; 71]%Z);
    ("VOCAL1", [72; 73; 74; 75; 76; 77; 78; 79]%Z);
    ("VOCAL2", [80; 81; 82; 83; 84; 85; 86; 87]%Z);
    ("ORGAN", [88; 89; 90; 91; 92; 93; 94; 95]%Z);
    ("BELL", [96; 97; 98; 99; 100; 101; 102; 103]%Z);
    ("ALIEN", [104; 105; 106; 107; 108; 109; 110; 111]%Z);
    ("NOISE", [112; 113; 114; 115; 116; 117; 118; 119]%Z);
    ("SPECIAL", [120; 121; 122; 123; 124; 125; 126; 127]%Z) ].

Definition rule : string :=
  "// ============================================================================".

(** Lines 190-191: one line of the header per bank. *)
Definition bank_desc_line (entry : string * list Z) : result string :=
  let (name, indices) := entry in
  match py.getitem indices 0, py.getitem indices (-1) with
  | Ok first, Ok final =>
      Ok (" * - " ++ name ++ ": PPG waves " ++ py.str first ++ "-"
          ++ py.str final)
  | Err e, _ => Err e
  | _, Err e => Err e
  end.

Fixpoint bank_desc_lines (selections : list (string * list Z))
  : result (list string) :=
  match selections with
  | [] => Ok []
  | entry :: rest =>
      match bank_desc_line entry with
      | Err e => Err e
      | Ok line =>
          match bank_desc_lines rest with
          | Err e => Err e
          | Ok lines => Ok (line :: lines)
          end
      end
  end.

(** Lines 193-217: the header of the generated file. *)
Definition header (num_banks : nat) (bank_desc : string) : string :=
  String.concat nl
    [ "/**";
      " * @file wavetables.h";
      " * @brief Pre-computed wavetable data for Vapo2";
      " *";
      " * Generated from PPG Wave 2.2 waveform data.";
      " * Original PPG waves: 64 samples, 8-bit unsigned";
      " * Converted to: 256 samples, 16-bit signed";
      " *";
      " * " ++ py.str (Z.of_nat num_banks) ++ " Banks with 8 waves each:";
      bank_desc;
      " *";
      " * Each bank has 8 waves for smooth morphing.";
      " */";
      "";
      "#pragma once";
      "";
      "#include <cstdint>";
      "";
      "// Wavetable dimensions";
      "#define WT_TABLE_SIZE 256";
      "#define WT_WAVES_PER_BANK 8";
      "#define WT_NUM_BANKS " ++ py.str (Z.of_nat num_banks);
      "#define WT_SAMPLES_PER_WAVE (WT_TABLE_SIZE + 4)  // +4 for interpolation guard";
      "";
      "" ].

End Formatting.

(** ** Bank assembler *)

(** What the assembler keeps of one processed wave: the name of its C array,
    the index of the legacy waveform it was built from, and its samples with
    the guard appended. *)
Record wave_entry : Type := WaveEntry {
  wave_name : string;
  wave_source : Z;
  wave_samples : list Z
}.

(** A bank: its waves in configured order, and the extra entry that closes
    its pointer array. *)
Record bank : Type := Bank {
  bank_name : string;
  bank_waves : list wave_entry;
  bank_guard : string
}.

Section Assembler.

Local Open Scope string_scope.

Variable waveforms : list (list Z).
Variable integrate : bool.

(** Lines 232-250: the body of the loop over the indices of a bank. *)
Definition process_wave (bank_name : string) (i : nat) (wave_idx : Z)
  : M wave_entry :=
  wave_idx <-
    (if (Z.of_nat (List.length waveforms) <=? wave_idx)%Z then
       print ("Warning: Wave " ++ py.str wave_idx ++ " not found, using wave 0") ;;;
       ret 0%Z
     else ret wave_idx) ;;
  raw <- lift (py.getitem waveforms wave_idx) ;;
  let signed16 := convert_to_signed16 raw in
  interpolated <- lift (interpolate_wave signed16 TARGET_SAMPLES) ;;
  processed <-
    lift (if integrate then integrate_wave interpolated
          else Ok (np.astype_int16 (np.clip interpolated (-32767) 32767))) ;;
  let with_guard := add_guard_samples processed GUARD_SAMPLES in
  let wave_name := "wt_" ++ py.lower bank_name ++ "_" ++ py.str (Z.of_nat i) in
  ret (WaveEntry wave_name wave_idx with_guard).

(** Line 231: [for i, wave_idx in enumerate(wave_indices)]. *)
Fixpoint process_waves (bank_name : string) (i : nat) (wave_indices : list Z)
  : M (list wave_entry) :=
  match wave_indices with
  | [] => ret []
  | wave_idx :: rest =>
      entry <- process_wave bank_name i wave_idx ;;
      entries <- process_waves bank_name (S i) rest ;;
      ret (entry :: entries)
  end.

(** Lines 230-267: one bank; its pointer array ends with [wave_names[0]]. *)
Definition process_bank (selection : string * list Z) : M bank :=
  let (bank_name, wave_indices) := selection in
  entries <- process_waves bank_name 0 wave_indices ;;
  guard <- lift (py.getitem (map wave_name entries) 0) ;;
  ret (Bank bank_name entries guard).

(** Line 222: the loop over the banks. *)
Fixpoint assemble_banks (selections : list (string * list Z)) : M (list bank) :=
  match selections with
  | [] => ret []
  | selection :: rest =>
      b <- process_bank selection ;;
      bs <- assemble_banks rest ;;
      ret (b :: bs)
  end.

End Assembler.

Section Rendering.

Local Open Scope string_scope.

(** Lines 223-228 and 252-256: the text of a bank's section. *)
Definition section_text (bank_idx : nat) (b : bank) : string :=
  let section_lines :=
    [ rule;
      "// BANK " ++ py.str (Z.of_nat bank_idx) ++ ": " ++ bank_name b;
      rule;
      "" ] in
  let wave_lines :=
    flat_map
      (fun e =>
         [ "// PPG Wave " ++ py.str (wave_source e);
           format_wave_array (wave_name e) (wave_samples e) 10;
           "" ])
      (bank_waves b) in
  String.concat nl (List.app section_lines wave_lines).

(** Lines 259-267: the text of a bank's pointer array. *)
Definition pointer_text (b : bank) : string :=
  let ptr_lines :=
    [ "static const int16_t* const wavetable_bank_" ++ py.lower (bank_name b)
      ++ "[WT_WAVES_PER_BANK + 1] = {" ] in
  let name_lines := map (fun e => "    " ++ wave_name e ++ ",") (bank_waves b) in
  let guard_lines :=
    [ "    " ++ bank_guard b ++ "  // Guard for interpolation"; "};" ] in
  String.concat nl (List.app ptr_lines (List.app name_lines guard_lines)).

(** Lines 270-285: the master bank array and the bank names. *)
Definition master_array (names : list string) : string :=
  let bank_ptr_names := map (fun name => "wavetable_bank_" ++ py.lower name) names in
  let bank_names_quoted := map (fun name => "    " ++ dquote ++ name ++ dquote) names in
  String.concat nl
    [ "";
      rule;
      "// Master bank array";
      rule;
      "static const int16_t* const* const wavetable_banks[WT_NUM_BANKS] = {";
      String.concat nl (map (fun name => "    " ++ name ++ ",") bank_ptr_names);
      "};";
      "";
      "// Bank names for display (max 8 chars for drumlogue display)";
      "static const char* const wavetable_bank_names[WT_NUM_BANKS] = {";
      String.concat nl (map (fun name => name ++ ",") bank_names_quoted);
      "};";
      "" ].

Fixpoint sections_from (bank_idx : nat) (banks : list bank) : list string :=
  match banks with
  | [] => []
  | b :: rest => section_text bank_idx b :: sections_from (S bank_idx) rest
  end.

(** Lines 288-302: everything written to the output file. *)
Definition file_text (head : string) (banks : list bank) (master : string)
  : string :=
  head
  ++ String.concat "" (map (fun section => section ++ nl) (sections_from 0 banks))
  ++ rule ++ nl
  ++ "// Bank pointer arrays" ++ nl
  ++ rule ++ nl ++ nl
  ++ String.concat "" (map (fun b => pointer_text b ++ nl ++ nl) banks)
  ++ master.

(** Lines 307-309: the size report (the quotient is exact to one decimal
    for the configured sizes). *)
Definition size_report : string :=
  let total_samples := (NUM_BANKS * WAVES_PER_BANK * (TARGET_SAMPLES + GUARD_SAMPLES))%nat in
  let total_bytes := Z.of_nat (total_samples * 2) in
  "Total wavetable data: " ++ py.str total_bytes ++ " bytes ("
  ++ py.str (total_bytes / 1024) ++ "." ++ py.str ((total_bytes * 10 / 1024) mod 10)
  ++ " KB)".

Definition generate_wavetables_h (waveforms : list (list Z))
    (output_path : string) (integrate : bool) : M unit :=
  let num_banks := List.length BANK_SELECTIONS in
  desc <- lift (bank_desc_lines BANK_SELECTIONS) ;;
  let head := header num_banks (String.concat nl desc) in
  banks <- assemble_banks waveforms integrate BANK_SELECTIONS ;;
  let master := master_array (map fst BANK_SELECTIONS) in
  write_file output_path (file_text head banks master) ;;;
  print ("Generated " ++ output_path) ;;;
  print size_report.

Fixpoint print_selections (selections : list (string * list Z)) : M unit :=
  match selections with
  | [] => ret tt
  | (bank_name, indices) :: rest =>
      print ("  " ++ bank_name ++ ": waves " ++ py.repr_list indices) ;;;
      print_selections rest
  end.

(** [main], run from the directory [script_dir]; the value is the exit
    status. *)
Definition main (script_dir : string) : M Z :=
  let ppg_data_path := script_dir ++ "/ppg_data.c" in
  let output_path := script_dir ++ "/wavetables.h" in
  found <- exists_file ppg_data_path ;;
  if negb found then
    print ("Error: " ++ ppg_data_path ++ " not found") ;;;
    ret 1%Z
  else
    print "Parsing PPG waveform data..." ;;;
    waveforms <- parse_ppg_waveforms ppg_data_path ;;
    print (nl ++ "Bank selections:") ;;;
    print_selections BANK_SELECTIONS ;;;
    print (nl ++ "Generating wavetables.h...") ;;;
    generate_wavetables_h waveforms output_path false ;;;
    ret 0%Z.

End Rendering.

(** ** Notions used to state the properties *)

(** The signal converter on one sample, in integer arithmetic. *)
Definition convert_sample (v : Z) : Z :=
  Z.min (Z.max ((v - 128) * 256) (-32767)) 32767.

(** The signal converter as the specification words it: a waveform whose
    length is not the fixed raw length is rejected, any other is converted. *)
Inductive converted : Type :=
| Accepted (samples : list Z)
| Rejected.

Definition spec_signal_converter (wave : list Z) : converted :=
  if (List.length wave =? PPG_SAMPLES)%nat then Accepted (map convert_sample wave)
  else Rejected.

(** The drift removal as the specification words it: the ramp runs from the
    first to the last cumulative value. *)
Definition spec_dc_ramp (integrated : list Qc) : list Qc :=
  np.linspace (hd 0%Qc integrated) (last integrated 0%Qc)
              (List.length integrated) true.

Definition spec_remove_drift (wave : list Qc) : list Qc :=
  let integrated := cumulative wave in
  subtract integrated (spec_dc_ramp integrated).

(** The rational values of a float array that was computed without
    exception. *)
Definition values_of (r : result (list Qc)) : option (list Q) :=
  match r with
  | Ok a => Some (map this a)
  | Err _ => None
  end.

(** The banks a run of the assembler ended with (none after an exception). *)
Definition banks_of (r : result (list bank) * world) : list bank :=
  match fst r with
  | Ok banks => banks
  | Err _ => []
  end.

(** The samples past the table, and the samples at its start. *)
Definition guard_of (e : wave_entry) : list Z :=
  skipn TARGET_SAMPLES (wave_samples e).

Definition leading (e : wave_entry) : list Z :=
  firstn GUARD_SAMPLES (wave_samples e).

(** Self-wrap: a full table followed by a copy of its own first samples. *)
Definition self_wrap (e : wave_entry) : Prop :=
  List.length (wave_samples e) = (TARGET_SAMPLES + GUARD_SAMPLES)%nat
  /\ guard_of e = leading e.

Definition samples_eqb (a b : list Z) : bool :=
  if list_eq_dec Z.eq_dec a b then true else false.

(** Bank-wrap as the specification words it: the guard of a member holds the
    leading samples of the next member, the guard of the last member those of
    the first. *)
Fixpoint bank_wrap_from (first : wave_entry) (members : list wave_entry) : bool :=
  match members with
  | [] => true
  | e :: rest =>
      match rest with
      | [] => samples_eqb (guard_of e) (leading first)
      | e' :: _ => samples_eqb (guard_of e) (leading e') && bank_wrap_from first rest
      end
  end.

Definition spec_bank_wrap (b : bank) : bool :=
  match bank_waves b with
  | [] => true
  | first :: _ => bank_wrap_from first (bank_waves b)
  end.

(** The pointer array of a bank closes with the name of its first wave. *)
Definition closes_with_first (b : bank) : Prop :=
  exists e rest, bank_waves b = e :: rest /\ bank_guard b = wave_name e.


(** A waveform of byte value [v] throughout. *)
Definition constant_wave (v : Z) : list Z := repeat v PPG_SAMPLES.

(** A world without files and with nothing printed. *)
Definition empty_world : world := World (fun _ => None) [].

(** The world after the lines [lines] were printed. *)
Definition emit (lines : list string) (w : world) : world :=
  World (files w) (stdout w ++ lines).

(** The index the assembler uses for a configured index, when [count]
    waveforms were extracted, and the warnings it prints for a list of
    configured indices. *)
Definition substituted (count : nat) (wave_idx : Z) : Z :=
  if Z.of_nat count <=? wave_idx then 0 else wave_idx.

Definition warning_line (wave_idx : Z) : string :=
  ("Warning: Wave " ++ py.str wave_idx ++ " not found, using wave 0")%string.

Definition warnings_for (count : nat) (wave_indices : list Z) : list string :=
  flat_map
    (fun wave_idx =>
       if Z.of_nat count <=? wave_idx then [warning_line wave_idx] else [])
    wave_indices.

(** A selection the assembler can process: a non-empty list of indices, none
    of them negative. *)
Definition well_formed (selection : string * list Z) : Prop :=
  snd selection <> [] /\ Forall (fun idx => 0 <= idx) (snd selection).

(** A computation that touches the world by printing only: its result and
    the lines it prints do not depend on the world it runs in. *)
Definition prints_only {A} (c : M A) : Prop :=
  exists (r : result A) (lines : list string), forall w, c w = (r, emit lines w).

(** The world after a run that printed [lines] and, when [written] is some
    text, wrote that text to the file [path]. *)
Definition after_run (path : string) (lines : list string)
    (written : option string) (w : world) : world :=
  World (match written with
         | Some text => fun p => if String.eqb p path then Some text else files w p
         | None => files w
         end)
        (stdout w ++ lines).
(** * Properties *)

(** ** Integers among the rationals *)

Lemma Qred_inject_Z (z : Z) : Qred (inject_Z z) = inject_Z z.
Proof.
  apply Qred_identity. simpl. apply Z.gcd_1_r.
Qed.

Lemma of_Z_this (z : Z) : this (np.of_Z z) = inject_Z z.
Proof.
  unfold np.of_Z. simpl. apply Qred_inject_Z.
Qed.

Lemma of_Z_compare (a b : Z) : (np.of_Z a ?= np.of_Z b)%Qc = (a ?= b)%Z.
Proof.
  unfold Qccompare. rewrite !of_Z_this.
  unfold Qcompare, inject_Z. simpl. now rewrite !Z.mul_1_r.
Qed.

Lemma of_Z_sub (a b : Z) : (np.of_Z a - np.of_Z b)%Qc = np.of_Z (a - b).
Proof.
  apply Qc_is_canon. unfold np.of_Z, Qcminus, Qcplus, Qcopp. cbn [this Q2Qc].
  rewrite !Qred_correct. unfold Z.sub.
  now rewrite inject_Z_plus, inject_Z_opp.
Qed.

Lemma of_Z_mul (a b : Z) : (np.of_Z a * np.of_Z b)%Qc = np.of_Z (a * b).
Proof.
  apply Qc_is_canon. unfold np.of_Z, Qcmult. cbn [this Q2Qc].
  rewrite !Qred_correct. now rewrite inject_Z_mult.
Qed.

Lemma of_Z_maximum (a b : Z) :
  np.maximum (np.of_Z a) (np.of_Z b) = np.of_Z (Z.max a b).
Proof.
  unfold np.maximum, Z.max. rewrite of_Z_compare.
  now destruct (a ?= b)%Z.
Qed.

Lemma of_Z_minimum (a b : Z) :
  np.minimum (np.of_Z a) (np.of_Z b) = np.of_Z (Z.min a b).
Proof.
  unfold np.minimum, Z.min. rewrite of_Z_compare.
  now destruct (a ?= b)%Z.
Qed.

Lemma trunc_of_Z (z : Z) : np.trunc (np.of_Z z) = z.
Proof.
  unfold np.trunc. rewrite of_Z_this. simpl. apply Z.quot_1_r.
Qed.

(** ** Signal converter *)

(** The float computation of the converter is exact: it is the integer
    formula [convert_sample] on every sample. *)
Lemma convert_to_signed16_samples (wave : list Z) :
  convert_to_signed16 wave = map convert_sample wave.
Proof.
  unfold convert_to_signed16, np.astype_int16, np.clip, np.astype_float64.
  rewrite !map_map. apply map_ext. intros v.
  unfold np.clip1, convert_sample.
  now rewrite of_Z_sub, of_Z_mul, of_Z_maximum, of_Z_minimum, trunc_of_Z.
Qed.

Lemma convert_sample_bounds (v : Z) : -32767 <= convert_sample v <= 32767.
Proof.
  unfold convert_sample. lia.
Qed.

(** C5: the output of the signal converter is as long as its input, and each
    of its samples is a signed 16-bit value. *)
Theorem convert_to_signed16_length_and_bounds (wave : list Z) :
  List.length (convert_to_signed16 wave) = List.length wave
  /\ Forall (fun s => -32768 <= s <= 32767) (convert_to_signed16 wave).
Proof.
  rewrite convert_to_signed16_samples. split.
  - apply length_map.
  - apply Forall_forall. intros s Hs.
    apply in_map_iff in Hs. destruct Hs as [v [<- _]].
    pose proof (convert_sample_bounds v). lia.
Qed.

(** C9: the converter clips at -32767: no converted sample is below it, so
    -32768 never occurs, and the raw sample 0 becomes -32767. *)
Theorem convert_to_signed16_floor (wave : list Z) :
  Forall (fun s => -32767 <= s /\ s <> -32768) (convert_to_signed16 wave)
  /\ convert_to_signed16 [0] = [-32767].
Proof.
  split; [| now rewrite convert_to_signed16_samples].
  rewrite convert_to_signed16_samples.
  apply Forall_forall. intros s Hs.
  apply in_map_iff in Hs. destruct Hs as [v [<- _]].
  pose proof (convert_sample_bounds v). lia.
Qed.

(** C2, as stated, fails: the specification rejects the four-sample waveform
    of its own scenario, the converter converts it. *)
Lemma convert_to_signed16_no_length_check :
  List.length [0; 64; 128; 192] <> PPG_SAMPLES
  /\ spec_signal_converter [0; 64; 128; 192] = Rejected
  /\ convert_to_signed16 [0; 64; 128; 192] = [-32767; -16384; 0; 16384].
Proof.
  split; [discriminate | split; [reflexivity |]].
  now rewrite convert_to_signed16_samples.
Qed.

(** C2, amended: the converter has no failure mode at all.  Where the
    specified converter accepts, the code returns the same samples; where it
    rejects (a length other than 64), the code still converts sample by
    sample. *)
Theorem convert_to_signed16_total (wave : list Z) :
  match spec_signal_converter wave with
  | Accepted samples => convert_to_signed16 wave = samples
  | Rejected =>
      List.length wave <> PPG_SAMPLES
      /\ convert_to_signed16 wave = map convert_sample wave
  end.
Proof.
  unfold spec_signal_converter.
  destruct (List.length wave =? PPG_SAMPLES)%nat eqn:E.
  - apply convert_to_signed16_samples.
  - split; [now apply Nat.eqb_neq | apply convert_to_signed16_samples].
Qed.
(** ** Legacy waveform extractor *)

Lemma Ok_inj {A} (a b : A) : Ok a = Ok b -> a = b.
Proof.
  congruence.
Qed.

Lemma fits_uint8_bytes (values : list Z) :
  forallb np.fits_uint8 values = true
  <-> Forall (fun v => 0 <= v <= 255) values.
Proof.
  rewrite forallb_forall, Forall_forall. unfold np.fits_uint8.
  split; intros H v Hv; specialize (H v Hv); lia.
Qed.

Lemma firstn_add {A} (a b : nat) (l : list A) :
  firstn (a + b) l = firstn a l ++ firstn b (skipn a l).
Proof.
  revert l. induction a as [| a IH]; intros l; simpl; [reflexivity |].
  destruct l as [| x l]; simpl.
  - now rewrite firstn_nil.
  - now rewrite IH.
Qed.

(** The turns that find a full chunk: they append the chunks in order, until
    one holds a value that does not fit. *)
Lemma fold_append_full (values : list Z) (m : nat) (acc : list (list Z)) :
  (m * PPG_SAMPLES <= List.length values)%nat ->
  fold_left (loop_turn values)
            (map (fun k => (k * PPG_SAMPLES)%nat) (seq 0 m)) (Ok acc)
  = if forallb np.fits_uint8 (firstn (m * PPG_SAMPLES) values)
    then Ok (acc ++ map (fun k => firstn PPG_SAMPLES (skipn (k * PPG_SAMPLES) values))
                        (seq 0 m))
    else Err OverflowError.
Proof.
  induction m as [| m IH]; intros Hm.
  - cbn. now rewrite app_nil_r.
  - rewrite seq_S, !map_app, fold_left_app. cbn [map fold_left Nat.add].
    rewrite IH by lia.
    replace (S m * PPG_SAMPLES)%nat with (m * PPG_SAMPLES + PPG_SAMPLES)%nat
      by lia.
    rewrite firstn_add, forallb_app.
    destruct (forallb np.fits_uint8 (firstn (m * PPG_SAMPLES) values));
      [| reflexivity].
    cbn [andb loop_turn]. unfold append_waveform.
    replace (m * PPG_SAMPLES + PPG_SAMPLES <=? List.length values)%nat with true
      by (symmetry; apply Nat.leb_le; lia).
    unfold py.slice, np.array_uint8.
    replace (m * PPG_SAMPLES + PPG_SAMPLES - m * PPG_SAMPLES)%nat
      with PPG_SAMPLES by lia.
    destruct (forallb np.fits_uint8
                (firstn PPG_SAMPLES (skipn (m * PPG_SAMPLES) values)));
      [| reflexivity].
    now rewrite <- app_assoc.
Qed.

Lemma append_partial (values : list Z) (m : nat)
    (acc : result (list (list Z))) :
  (List.length values < m * PPG_SAMPLES + PPG_SAMPLES)%nat ->
  loop_turn values acc (m * PPG_SAMPLES) = acc.
Proof.
  intros H. destruct acc as [acc | e]; [| reflexivity].
  cbn [loop_turn]. unfold append_waveform.
  now replace (m * PPG_SAMPLES + PPG_SAMPLES <=? List.length values)%nat
    with false by (symmetry; apply Nat.leb_gt; lia).
Qed.

Lemma concat_chunks {A} (values : list A) (size m : nat) :
  List.concat (map (fun k => firstn size (skipn (k * size) values)) (seq 0 m))
  = firstn (m * size) values.
Proof.
  induction m as [| m IH]; [reflexivity |].
  rewrite seq_S, map_app, concat_app, IH. simpl.
  rewrite app_nil_r.
  replace (size + m * size)%nat with (m * size + size)%nat by lia.
  now rewrite firstn_add.
Qed.

Lemma range_step_64 (n : nat) :
  py.range_step n PPG_SAMPLES
  = map (fun k => (k * PPG_SAMPLES)%nat) (seq 0 (n / PPG_SAMPLES))
    ++ (if (n mod PPG_SAMPLES =? 0)%nat then []
        else [(n / PPG_SAMPLES * PPG_SAMPLES)%nat]).
Proof.
  unfold py.range_step, PPG_SAMPLES.
  pose proof (Nat.div_mod_eq n 64) as E.
  pose proof (Nat.mod_upper_bound n 64 ltac:(discriminate)) as Hr.
  destruct (n mod 64 =? 0)%nat eqn:Z0.
  - apply Nat.eqb_eq in Z0. rewrite app_nil_r. f_equal. f_equal.
    symmetry. apply Nat.div_unique with (r := 63%nat); lia.
  - apply Nat.eqb_neq in Z0.
    replace ((n + 64 - 1) / 64)%nat with (S (n / 64)).
    + now rewrite seq_S, map_app.
    + apply Nat.div_unique with (r := (n mod 64 - 1)%nat); lia.
Qed.

(** The waveforms are the consecutive full chunks, in order; the loop raises
    when a value of a full chunk does not fit 8 bits. *)
Lemma split_waveforms_chunks (values : list Z) :
  split_waveforms values
  = if forallb np.fits_uint8
         (firstn (List.length values / PPG_SAMPLES * PPG_SAMPLES) values)
    then Ok (map (fun k => firstn PPG_SAMPLES (skipn (k * PPG_SAMPLES) values))
                 (seq 0 (List.length values / PPG_SAMPLES)))
    else Err OverflowError.
Proof.
  unfold split_waveforms.
  rewrite range_step_64, fold_left_app.
  pose proof (Nat.div_mod_eq (List.length values) PPG_SAMPLES) as E.
  pose proof (Nat.mod_upper_bound (List.length values) PPG_SAMPLES
                ltac:(discriminate)) as Hr.
  rewrite fold_append_full by lia. cbn [app].
  destruct (List.length values mod PPG_SAMPLES =? 0)%nat eqn:Z0; [reflexivity |].
  apply Nat.eqb_neq in Z0.
  cbn [fold_left]. apply append_partial. lia.
Qed.

Lemma chunks_count (values : list Z) :
  List.length (map (fun k => firstn PPG_SAMPLES (skipn (k * PPG_SAMPLES) values))
                   (seq 0 (List.length values / PPG_SAMPLES)))
  = (List.length values / PPG_SAMPLES)%nat.
Proof.
  now rewrite length_map, length_seq.
Qed.

Lemma chunks_lengths (values : list Z) :
  Forall (fun wave => List.length wave = PPG_SAMPLES)
         (map (fun k => firstn PPG_SAMPLES (skipn (k * PPG_SAMPLES) values))
              (seq 0 (List.length values / PPG_SAMPLES))).
Proof.
  unfold PPG_SAMPLES.
  pose proof (Nat.div_mod_eq (List.length values) 64) as E.
  apply Forall_forall. intros wave Hw.
  apply in_map_iff in Hw. destruct Hw as [k [<- Hk]].
  apply in_seq in Hk.
  rewrite length_firstn, length_skipn. lia.
Qed.

(** What the loop returns when it returns: full chunks of bytes. *)
Lemma split_waveforms_ok (values : list Z) (waveforms : list (list Z)) :
  split_waveforms values = Ok waveforms ->
  List.length waveforms = (List.length values / PPG_SAMPLES)%nat
  /\ Forall (fun wave => List.length wave = PPG_SAMPLES) waveforms
  /\ List.concat waveforms
     = firstn (List.length values / PPG_SAMPLES * PPG_SAMPLES) values
  /\ Forall (fun v => 0 <= v <= 255) (List.concat waveforms).
Proof.
  rewrite split_waveforms_chunks.
  destruct (forallb _ _) eqn:F; [| discriminate].
  intros H. apply Ok_inj in H. subst waveforms. rewrite concat_chunks.
  split; [apply chunks_count |].
  split; [apply chunks_lengths |].
  split; [reflexivity |].
  now apply fits_uint8_bytes.
Qed.


Lemma split_waveforms_bytes (values : list Z) :
  Forall (fun v => 0 <= v <= 255)
         (firstn (List.length values / PPG_SAMPLES * PPG_SAMPLES) values) ->
  split_waveforms values
  = Ok (map (fun k => firstn PPG_SAMPLES (skipn (k * PPG_SAMPLES) values))
            (seq 0 (List.length values / PPG_SAMPLES))).
Proof.
  intros H. apply fits_uint8_bytes in H.
  now rewrite split_waveforms_chunks, H.
Qed.



(** ** NumPy primitives *)

Lemma set_last_length (y : list Qc) (v : Qc) :
  List.length (np.set_last y v) = List.length y.
Proof.
  destruct y as [| a y]; [reflexivity |].
  unfold np.set_last.
  rewrite length_app, removelast_firstn_len, length_firstn.
  simpl. lia.
Qed.

Lemma arange_length (num : nat) : List.length (np.arange num) = num.
Proof.
  unfold np.arange. now rewrite length_map, length_seq.
Qed.

Lemma linspace_length (start stop : Qc) (num : nat) (endpoint : bool) :
  List.length (np.linspace start stop num endpoint) = num.
Proof.
  unfold np.linspace.
  destruct (endpoint && (1 <? num)%nat);
    [rewrite set_last_length |];
    destruct (if endpoint then Nat.pred num else num);
    now rewrite length_map, arange_length.
Qed.

Lemma cumsum_from_length (acc : Qc) (a : list Qc) :
  List.length (np.cumsum_from acc a) = List.length a.
Proof.
  revert acc. induction a as [| x a IH]; intros acc; simpl; [reflexivity |].
  now rewrite IH.
Qed.

Lemma of_Z_S_nonzero (k : nat) : np.of_Z (Z.of_nat (S k)) <> 0%Qc.
Proof.
  intros H. assert (C : (np.of_Z (Z.of_nat (S k)) ?= np.of_Z 0)%Qc = Eq)
    by (apply Qceq_alt; exact H).
  rewrite of_Z_compare in C. apply Z.compare_eq in C. lia.
Qed.

(** With the end point, a ramp of at least two values is the straight line
    from [0] to [stop]. *)
Lemma linspace_from_zero (stop : Qc) (k : nat) :
  np.linspace 0%Qc stop (S (S k)) true
  = map (fun i => (np.of_Z (Z.of_nat i) * (stop / np.of_Z (Z.of_nat (S k))))%Qc)
        (seq 0 (S (S k))).
Proof.
  unfold np.linspace. cbn [Nat.pred andb Nat.ltb Nat.leb].
  unfold np.arange. rewrite map_map.
  set (step := ((stop - 0) / np.of_Z (Z.of_nat (S k)))%Qc).
  assert (Es : step = (stop / np.of_Z (Z.of_nat (S k)))%Qc)
    by (unfold step; f_equal; ring).
  rewrite <- Es.
  assert (Ef : forall l,
             map (fun i => (np.of_Z (Z.of_nat i) * step + 0)%Qc) l
             = map (fun i => (np.of_Z (Z.of_nat i) * step)%Qc) l)
    by (intros l; apply map_ext; intros i; ring).
  rewrite Ef.
  rewrite (seq_S (S k)) at 1. rewrite map_app. cbn [map].
  unfold np.set_last.
  destruct (map (fun i => (np.of_Z (Z.of_nat i) * step)%Qc) (seq 0 (S k)) ++
            [(np.of_Z (Z.of_nat (0 + S k)) * step)%Qc]) eqn:E.
  - now apply app_eq_nil in E.
  - rewrite <- E, removelast_last.
    rewrite (seq_S (S k)), map_app. cbn [map]. f_equal. f_equal.
    cbn [Nat.add]. rewrite Es. field. apply of_Z_S_nonzero.
Qed.

(** ** Anti-aliasing integrator *)

Lemma getitem_last {A} (l : list A) (d : A) :
  l <> [] -> py.getitem l (-1) = Ok (last l d).
Proof.
  intros Hl. unfold py.getitem. cbn [Z.ltb Z.compare].
  destruct (exists_last Hl) as [l' [a ->]].
  rewrite length_app, last_last. cbn [List.length].
  replace ((0 <=? -1 + Z.of_nat (List.length l' + 1))
           && (-1 + Z.of_nat (List.length l' + 1)
               <? Z.of_nat (List.length l' + 1)))%bool with true
    by (symmetry; apply andb_true_iff; split;
        [apply Z.leb_le | apply Z.ltb_lt]; lia).
  replace (Z.to_nat (-1 + Z.of_nat (List.length l' + 1)))
    with (List.length l') by lia.
  now rewrite nth_error_app2, Nat.sub_diag by lia.
Qed.

Lemma remove_drift_nonempty (x : Qc) (wave : list Qc) :
  let integrated := cumulative (x :: wave) in
  remove_drift (x :: wave)
  = Ok (subtract integrated (dc_ramp integrated (last integrated 0%Qc))).
Proof.
  cbv zeta. unfold remove_drift.
  now rewrite (getitem_last _ 0%Qc) by discriminate.
Qed.

Lemma subtract_length (a b : list Qc) :
  List.length a = List.length b ->
  List.length (subtract a b) = List.length a.
Proof.
  intros H. unfold subtract. rewrite length_map, length_combine. lia.
Qed.

Lemma remove_drift_length (wave integrated : list Qc) :
  remove_drift wave = Ok integrated ->
  List.length integrated = List.length wave.
Proof.
  destruct wave as [| x wave].
  - discriminate.
  - rewrite remove_drift_nonempty. intros [= <-].
    rewrite subtract_length.
    + apply cumsum_from_length.
    + unfold dc_ramp. now rewrite linspace_length.
Qed.

(** C3, as stated, fails: for the waveform [1, 1] the cumulative sum is
    [1, 2], and the ramp the code subtracts is [0, 2], which starts at 0 and
    not at the first cumulative value 1; the result is [1, 0], not [0, 0]. *)
Lemma dc_ramp_not_from_first_value :
  let wave := [1; 1]%Qc in
  let integrated := cumulative wave in
  map this integrated = [1; 2]%Q
  /\ map this (dc_ramp integrated (last integrated 0%Qc)) = [0; 2]%Q
  /\ map this (spec_dc_ramp integrated) = [1; 2]%Q
  /\ hd 0%Qc (dc_ramp integrated (last integrated 0%Qc)) <> hd 0%Qc integrated
  /\ values_of (remove_drift wave) = Some [1; 0]%Q
  /\ map this (spec_remove_drift wave) = [0; 0]%Q.
Proof.
  cbv zeta. repeat split; try (vm_compute; reflexivity).
  intros H. apply (f_equal this) in H. vm_compute in H. discriminate.
Qed.

(** C3, amended: the ramp subtracted from the cumulative sum is the straight
    line from 0 to the last cumulative value. *)
Theorem remove_drift_ramp_from_zero (x y : Qc) (rest : list Qc) :
  let wave := x :: y :: rest in
  let integrated := cumulative wave in
  let final := last integrated 0%Qc in
  let ramp := dc_ramp integrated final in
  remove_drift wave = Ok (subtract integrated ramp)
  /\ List.length ramp = List.length wave
  /\ hd 0%Qc ramp = 0%Qc
  /\ last ramp 0%Qc = final
  /\ ramp
     = map (fun i =>
              (np.of_Z (Z.of_nat i)
               * (final / np.of_Z (Z.of_nat (List.length wave - 1))))%Qc)
           (seq 0 (List.length wave)).
Proof.
  cbv zeta.
  set (integrated := cumulative (x :: y :: rest)).
  set (final := last integrated 0%Qc).
  assert (Hn : List.length integrated = S (S (List.length rest)))
    by (unfold integrated, cumulative, np.cumsum;
        now rewrite cumsum_from_length).
  assert (Hr : dc_ramp integrated final
               = np.linspace 0%Qc final (S (S (List.length rest))) true)
    by (unfold dc_ramp; now rewrite Hn).
  split; [apply remove_drift_nonempty |].
  split; [rewrite Hr; apply linspace_length |].
  split.
  - rewrite Hr, linspace_from_zero. cbn [seq map hd Z.of_nat].
    change (np.of_Z 0) with 0%Qc. ring.
  - split.
    + rewrite Hr. unfold np.linspace. cbn [Nat.pred andb Nat.ltb Nat.leb].
      unfold np.set_last.
      destruct (map _ (np.arange (S (S (List.length rest))))) eqn:E.
      * apply (f_equal (@List.length Qc)) in E.
        rewrite length_map, arange_length in E. discriminate.
      * apply last_last.
    + rewrite Hr, linspace_from_zero. cbn [List.length Nat.sub].
      reflexivity.
Qed.

Lemma maximum_ge_l (x y : Qc) : (x <= np.maximum x y)%Qc.
Proof.
  unfold np.maximum. destruct (x ?= y)%Qc eqn:E; try apply Qcle_refl.
  apply Qclt_le_weak. now apply Qclt_alt.
Qed.

Lemma maximum_ge_r (x y : Qc) : (y <= np.maximum x y)%Qc.
Proof.
  unfold np.maximum. destruct (x ?= y)%Qc eqn:E.
  - apply Qceq_alt in E. subst. apply Qcle_refl.
  - apply Qcle_refl.
  - apply Qclt_le_weak. now apply Qcgt_alt.
Qed.

Lemma fold_maximum_ge (r : list Qc) (x : Qc) :
  (x <= fold_left np.maximum r x)%Qc
  /\ Forall (fun v => (v <= fold_left np.maximum r x)%Qc) r.
Proof.
  revert x. induction r as [| y r IH]; intros x; simpl.
  - split; [apply Qcle_refl | constructor].
  - destruct (IH (np.maximum x y)) as [H1 H2]. split.
    + eapply Qcle_trans; [apply maximum_ge_l | exact H1].
    + constructor; [| exact H2].
      eapply Qcle_trans; [apply maximum_ge_r | exact H1].
Qed.

Lemma Qcabs_nonneg (v : Qc) : (0 <= np.Qcabs v)%Qc.
Proof.
  unfold np.Qcabs. destruct (v ?= 0)%Qc eqn:E.
  - apply Qceq_alt in E. subst. apply Qcle_refl.
  - apply Qclt_alt in E. apply Qclt_le_weak in E.
    apply Qcopp_le_compat in E. exact E.
  - apply Qclt_le_weak. now apply Qcgt_alt.
Qed.

Lemma Qcabs_zero (v : Qc) : np.Qcabs v = 0%Qc -> v = 0%Qc.
Proof.
  unfold np.Qcabs. destruct (v ?= 0)%Qc eqn:E; intros H; try exact H.
  rewrite <- (Qcopp_involutive v), H. now apply Qc_is_canon.
Qed.

(** A zero peak means that every value is zero. *)
Lemma zero_peak_all_zero (a : list Qc) :
  np.max (np.abs a) = Some 0%Qc -> Forall (fun v => v = 0%Qc) a.
Proof.
  destruct a as [| x r]; [constructor |].
  unfold np.max, np.abs. cbn [map]. intros [= H].
  destruct (fold_maximum_ge (map np.Qcabs r) (np.Qcabs x)) as [Hx Hr].
  rewrite H in Hx, Hr.
  constructor.
  - apply Qcabs_zero, Qcle_antisym; [exact Hx | apply Qcabs_nonneg].
  - apply Forall_forall. intros v Hv. rewrite Forall_forall in Hr.
    apply Qcabs_zero, Qcle_antisym; [| apply Qcabs_nonneg].
    apply Hr, in_map, Hv.
Qed.

(** The division of the normalization is never a division by zero. *)
Lemma normalize_division_guarded (integrated : list Qc) :
  normalize integrated <> Err FloatingPointError.
Proof.
  unfold normalize. destruct (np.max (np.abs integrated)) as [max_val |];
    [| discriminate].
  destruct (max_val ?= 0)%Qc eqn:E; try discriminate.
  unfold divide, Qc_eq_bool. destruct (Qc_eq_dec max_val 0) as [Z0 | _].
  - apply Qceq_alt in Z0. congruence.
  - discriminate.
Qed.

(** C10: when the peak of the drift-removed cumulative sum is zero, the
    scaling step leaves the array as it is, nothing is divided by zero, and
    the integrator returns the all-zero waveform. *)
Theorem integrate_wave_zero_peak (wave integrated : list Qc) :
  remove_drift wave = Ok integrated ->
  np.max (np.abs integrated) = Some 0%Qc ->
  normalize integrated = Ok integrated
  /\ normalize integrated <> Err FloatingPointError
  /\ integrate_wave wave = Ok (repeat 0 (List.length wave)).
Proof.
  intros Hd Hp.
  assert (Hn : normalize integrated = Ok integrated)
    by (unfold normalize; now rewrite Hp).
  split; [exact Hn |].
  split; [apply normalize_division_guarded |].
  unfold integrate_wave. rewrite Hd, Hn. f_equal.
  rewrite <- (remove_drift_length _ _ Hd).
  pose proof (zero_peak_all_zero _ Hp) as Hz.
  unfold np.astype_int16, np.clip. rewrite map_map.
  clear Hd Hp Hn. induction Hz as [| v r Hv _ IH]; [reflexivity |].
  cbn [map List.length repeat]. now rewrite IH, Hv.
Qed.

(** The waveform [0, 5]: its cumulative sum [0, 5] is the ramp itself. *)
Lemma integrate_wave_zero_peak_witness :
  let wave := [0%Qc; np.of_Z 5] in
  let integrated :=
    subtract (cumulative wave)
             (dc_ramp (cumulative wave) (last (cumulative wave) 0%Qc)) in
  normalize integrated = Ok integrated
  /\ normalize integrated <> Err FloatingPointError
  /\ integrate_wave wave = Ok [0; 0].
Proof.
  cbv zeta.
  apply (integrate_wave_zero_peak [0%Qc; np.of_Z 5]).
  - reflexivity.
  - vm_compute. reflexivity.
Defined.

(** ** The monad *)

Lemma bind_ok {A B} (c : M A) (k : A -> M B) (w w2 : world) (b : B) :
  bind c k w = (Ok b, w2) ->
  exists a w1, c w = (Ok a, w1) /\ k a w1 = (Ok b, w2).
Proof.
  unfold bind. destruct (c w) as [[a | e] w1]; intros H.
  - now exists a, w1.
  - discriminate.
Qed.

Lemma lift_ok {A} (r : result A) (w w1 : world) (a : A) :
  lift r w = (Ok a, w1) -> r = Ok a /\ w1 = w.
Proof.
  unfold lift. now intros [= -> ->].
Qed.

Lemma ret_ok {A} (x a : A) (w w1 : world) :
  ret x w = (Ok a, w1) -> a = x /\ w1 = w.
Proof.
  unfold ret. now intros [= -> ->].
Qed.

(** ** Lengths along the pipeline *)

Lemma interpolate_wave_length (wave : list Z) (target : nat) (out : list Qc) :
  interpolate_wave wave target = Ok out -> List.length out = target.
Proof.
  unfold interpolate_wave.
  destruct (scipy.interp1d_cubic _ _) as [f | e]; [| discriminate].
  unfold scipy.call. destruct (forallb _ _); [| discriminate].
  intros [= <-]. now rewrite length_map, linspace_length.
Qed.

Lemma normalize_length (a b : list Qc) :
  normalize a = Ok b -> List.length b = List.length a.
Proof.
  unfold normalize. destruct (np.max (np.abs a)) as [m |]; [| discriminate].
  destruct (m ?= 0)%Qc.
  - now intros [= <-].
  - now intros [= <-].
  - destruct (divide (np.of_Z 30000) m); [| discriminate].
    intros [= <-]. apply length_map.
Qed.

Lemma integrate_wave_length (wave : list Qc) (out : list Z) :
  integrate_wave wave = Ok out -> List.length out = List.length wave.
Proof.
  unfold integrate_wave.
  destruct (remove_drift wave) as [a | e] eqn:Ha; [| discriminate].
  destruct (normalize a) as [b | e] eqn:Hb; [| discriminate].
  intros [= <-]. unfold np.astype_int16, np.clip.
  rewrite !length_map, (normalize_length _ _ Hb).
  now apply remove_drift_length.
Qed.

(** ** Guard appender *)

(** A table of [TARGET_SAMPLES] samples with its guard appended is in the
    self-wrap form. *)
Lemma add_guard_samples_self_wrap (name : string) (source : Z) (processed : list Z) :
  List.length processed = TARGET_SAMPLES ->
  self_wrap (WaveEntry name source (add_guard_samples processed GUARD_SAMPLES)).
Proof.
  intros H. unfold self_wrap, guard_of, leading, add_guard_samples.
  cbn [wave_samples]. split.
  - rewrite length_app, length_firstn, H. reflexivity.
  - rewrite skipn_app, H, Nat.sub_diag, <- H, skipn_all. cbn [app skipn].
    rewrite firstn_app.
    replace (GUARD_SAMPLES - List.length processed)%nat with 0%nat
      by (rewrite H; reflexivity).
    now rewrite firstn_O, app_nil_r.
Qed.

(** ** Bank assembler *)

Section AssemblerFacts.

Variable waveforms : list (list Z).
Variable integrate : bool.

Lemma process_wave_self_wrap (name : string) (i : nat) (idx : Z)
    (w w' : world) (e : wave_entry) :
  process_wave waveforms integrate name i idx w = (Ok e, w') -> self_wrap e.
Proof.
  unfold process_wave. intros H.
  apply bind_ok in H. destruct H as [idx' [w1 [_ H]]].
  apply bind_ok in H. destruct H as [raw [w2 [_ H]]].
  apply bind_ok in H. destruct H as [interpolated [w3 [Hi H]]].
  apply bind_ok in H. destruct H as [processed [w4 [Hp H]]].
  apply ret_ok in H. destruct H as [-> _].
  apply lift_ok in Hi. destruct Hi as [Hi _].
  apply lift_ok in Hp. destruct Hp as [Hp _].
  apply add_guard_samples_self_wrap.
  apply interpolate_wave_length in Hi.
  destruct integrate.
  - apply integrate_wave_length in Hp. congruence.
  - injection Hp as <-. unfold np.astype_int16, np.clip.
    now rewrite !length_map.
Qed.

Lemma process_waves_self_wrap (name : string) (indices : list Z) :
  forall (i : nat) (w w' : world) (entries : list wave_entry),
    process_waves waveforms integrate name i indices w = (Ok entries, w') ->
    Forall self_wrap entries.
Proof.
  induction indices as [| idx rest IH]; intros i w w' entries H.
  - apply ret_ok in H. destruct H as [-> _]. constructor.
  - cbn [process_waves] in H.
    apply bind_ok in H. destruct H as [e [w1 [He H]]].
    apply bind_ok in H. destruct H as [es [w2 [Hes H]]].
    apply ret_ok in H. destruct H as [-> _].
    constructor.
    + eapply process_wave_self_wrap, He.
    + eapply IH, Hes.
Qed.

Lemma getitem_first {A} (l : list A) (a : A) :
  py.getitem l 0 = Ok a -> exists rest, l = a :: rest.
Proof.
  destruct l as [| x l].
  - discriminate.
  - unfold py.getitem. cbn [Z.ltb Z.compare].
    destruct ((0 <=? 0) && (0 <? Z.of_nat (List.length (x :: l))))%bool;
      [| discriminate].
    cbn. intros [= ->]. now exists l.
Qed.

Lemma process_bank_wraps (selection : string * list Z) (w w' : world) (b : bank) :
  process_bank waveforms integrate selection w = (Ok b, w') ->
  Forall self_wrap (bank_waves b) /\ closes_with_first b.
Proof.
  destruct selection as [name indices]. unfold process_bank. intros H.
  apply bind_ok in H. destruct H as [entries [w1 [He H]]].
  apply bind_ok in H. destruct H as [guard [w2 [Hg H]]].
  apply ret_ok in H. destruct H as [-> _]. cbn [bank_waves].
  split; [eapply process_waves_self_wrap, He |].
  apply lift_ok in Hg. destruct Hg as [Hg _].
  apply getitem_first in Hg. destruct Hg as [names Hn].
  destruct entries as [| e entries]; [discriminate |].
  injection Hn as <- _. now exists e, entries.
Qed.

Lemma assemble_banks_wraps (selections : list (string * list Z)) :
  forall (w w' : world) (banks : list bank),
    assemble_banks waveforms integrate selections w = (Ok banks, w') ->
    Forall (fun b => Forall self_wrap (bank_waves b) /\ closes_with_first b)
           banks.
Proof.
  induction selections as [| selection rest IH]; intros w w' banks H.
  - apply ret_ok in H. destruct H as [-> _]. constructor.
  - cbn [assemble_banks] in H.
    apply bind_ok in H. destruct H as [b [w1 [Hb H]]].
    apply bind_ok in H. destruct H as [bs [w2 [Hbs H]]].
    apply ret_ok in H. destruct H as [-> _].
    constructor.
    + eapply process_bank_wraps, Hb.
    + eapply IH, Hbs.
Qed.

End AssemblerFacts.

(** C1, amended: every wave processed as a member of a bank is in the
    self-wrap form, its guard being a copy of its own first samples; the
    wrap to the first member of the bank is the extra last entry of the
    bank's pointer array, which names the bank's first wave. *)
Theorem bank_members_self_wrap (waveforms : list (list Z)) (integrate : bool)
    (selections : list (string * list Z)) (w : world) :
  Forall (fun b => Forall self_wrap (bank_waves b) /\ closes_with_first b)
         (banks_of (assemble_banks waveforms integrate selections w)).
Proof.
  unfold banks_of.
  destruct (assemble_banks waveforms integrate selections w)
    as [[banks | e] w'] eqn:H; cbn [fst].
  - eapply assemble_banks_wraps, H.
  - constructor.
Qed.

(** C1, as stated, fails: with a waveform of constant 128 in slot 0 and one
    of constant 255 in slot 1 the run builds all sixteen banks, and the
    guard of the first member of the first bank is [0, 0, 0, 0], its own
    leading samples, while the second member starts with 32512 (the fit
    through a constant waveform is that constant). *)
Lemma bank_members_not_bank_wrap :
  let banks :=
    banks_of (assemble_banks [constant_wave 128; constant_wave 255] false
                             BANK_SELECTIONS empty_world) in
  (List.length banks,
   forallb spec_bank_wrap banks,
   map (fun e => (wave_source e, guard_of e, leading e))
       (flat_map (fun b => firstn 2 (bank_waves b)) (firstn 1 banks)))
  = (16%nat,
     false,
     [ (0, [0; 0; 0; 0], [0; 0; 0; 0]);
       (1, [32512; 32512; 32512; 32512], [32512; 32512; 32512; 32512]) ]).
Proof.
  vm_compute. reflexivity.
Qed.

(** ** Completion of the assembler *)

Lemma emit_nil (w : world) : emit [] w = w.
Proof.
  destruct w. unfold emit. cbn. now rewrite app_nil_r.
Qed.

Lemma emit_emit (l1 l2 : list string) (w : world) :
  emit l2 (emit l1 w) = emit (l1 ++ l2) w.
Proof.
  unfold emit. cbn. now rewrite app_assoc.
Qed.

Lemma call_in_range (x y m x_new : list Qc) :
  forallb (fun t =>
             match x with
             | x0 :: _ => scipy.leb x0 t && scipy.leb t (last x x0)
             | [] => false
             end) x_new = true ->
  scipy.call (scipy.Interpolant x y m) x_new
  = Ok (map (scipy.eval x y m) x_new).
Proof.
  intros H. unfold scipy.call, scipy.in_range. cbn [scipy.knots].
  cbn [scipy.values scipy.second]. now rewrite H.
Qed.

(** The resampler accepts every waveform of 64 samples. *)
Lemma interpolate_wave_succeeds (wave : list Z) :
  List.length wave = PPG_SAMPLES ->
  exists out, interpolate_wave wave TARGET_SAMPLES = Ok out.
Proof.
  intros H. unfold interpolate_wave. rewrite H.
  set (x_old := np.linspace 0%Qc 1%Qc PPG_SAMPLES false).
  set (x := x_old ++ map (fun x => (x + 1)%Qc) (firstn 4 x_old)).
  set (y := np.astype_float64 (wave ++ firstn 4 wave)).
  assert (Hx : List.length x = 68%nat)
    by (unfold x, x_old;
        now rewrite length_app, length_map, length_firstn, linspace_length).
  assert (Hy : List.length y = 68%nat)
    by (unfold y, np.astype_float64;
        now rewrite length_map, length_app, length_firstn, H).
  unfold scipy.interp1d_cubic. rewrite Hx, Hy. cbn [Nat.eqb negb Nat.ltb Nat.leb].
  rewrite call_in_range; [eauto |].
  vm_compute. reflexivity.
Qed.

Lemma normalize_succeeds (a : list Qc) :
  a <> [] -> exists b, normalize a = Ok b.
Proof.
  intros Ha. unfold normalize. destruct a as [| x a]; [congruence |].
  unfold np.max, np.abs. cbn [map].
  set (m := fold_left np.maximum (map np.Qcabs a) (np.Qcabs x)).
  destruct (m ?= 0)%Qc eqn:E; eauto.
  unfold divide, Qc_eq_bool. destruct (Qc_eq_dec m 0) as [Z0 | _]; eauto.
  apply Qceq_alt in Z0. congruence.
Qed.

(** The integrator accepts every non-empty waveform. *)
Lemma integrate_wave_succeeds (wave : list Qc) :
  wave <> [] -> exists out, integrate_wave wave = Ok out.
Proof.
  intros Hw. destruct wave as [| x wave]; [congruence |].
  unfold integrate_wave. rewrite remove_drift_nonempty.
  set (a := subtract _ _).
  assert (La : List.length a = S (List.length wave)).
  { unfold a. rewrite subtract_length.
    - apply cumsum_from_length.
    - unfold dc_ramp. now rewrite linspace_length. }
  destruct (normalize_succeeds a) as [b ->]; [| eauto].
  intros ->. discriminate.
Qed.

Lemma getitem_cons_0 {A} (a : A) (l : list A) : py.getitem (a :: l) 0 = Ok a.
Proof.
  unfold py.getitem. cbn [Z.ltb Z.compare List.length].
  replace ((0 <=? 0) && (0 <? Z.of_nat (S (List.length l))))%bool with true
    by (symmetry; apply andb_true_iff; split;
        [apply Z.leb_le | apply Z.ltb_lt]; lia).
  reflexivity.
Qed.

Section Completion.

Variable waveforms : list (list Z).
Variable integrate : bool.

Hypothesis some_waveform : waveforms <> [].

Hypothesis raw_lengths :
  Forall (fun wave => List.length wave = PPG_SAMPLES) waveforms.

Lemma getitem_in_range (idx : Z) :
  0 <= idx ->
  exists raw,
    py.getitem waveforms (substituted (List.length waveforms) idx) = Ok raw
    /\ List.length raw = PPG_SAMPLES.
Proof.
  intros H0. unfold substituted, py.getitem.
  set (n := Z.of_nat (List.length waveforms)).
  assert (Hn : 0 < n)
    by (unfold n; destruct waveforms; [congruence | cbn [List.length]; lia]).
  set (j := if n <=? idx then 0 else idx).
  assert (Hj : 0 <= j < n)
    by (unfold j; destruct (Z.leb_spec n idx); lia).
  replace (j <? 0) with false by (symmetry; apply Z.ltb_ge; lia).
  replace ((0 <=? j) && (j <? n))%bool with true
    by (symmetry; apply andb_true_iff; split;
        [apply Z.leb_le | apply Z.ltb_lt]; lia).
  destruct (nth_error waveforms (Z.to_nat j)) as [raw |] eqn:E.
  - exists raw. split; [reflexivity |].
    apply nth_error_In in E. rewrite Forall_forall in raw_lengths. auto.
  - apply nth_error_None in E. unfold n in Hj. lia.
Qed.

(** One slot: the wave is built from the configured index, or from index 0
    after a warning when the configured index is out of range. *)
Lemma process_wave_completes (name : string) (i : nat) (idx : Z) (w : world) :
  0 <= idx ->
  exists e,
    process_wave waveforms integrate name i idx w
    = (Ok e, emit (warnings_for (List.length waveforms) [idx]) w)
    /\ wave_source e = substituted (List.length waveforms) idx
    /\ wave_name e
       = ("wt_" ++ py.lower name ++ "_" ++ py.str (Z.of_nat i))%string.
Proof.
  intros H0.
  destruct (getitem_in_range idx H0) as [raw [Hraw Lraw]].
  destruct (interpolate_wave_succeeds (convert_to_signed16 raw))
    as [interpolated Hi].
  { now rewrite convert_to_signed16_samples, length_map. }
  assert (Hp : exists processed,
             (if integrate then integrate_wave interpolated
              else Ok (np.astype_int16 (np.clip interpolated (-32767) 32767)))
             = Ok processed).
  { destruct integrate; [| eauto].
    apply integrate_wave_succeeds. intros ->.
    apply interpolate_wave_length in Hi. discriminate. }
  destruct Hp as [processed Hp].
  unfold process_wave, warnings_for, substituted in *.
  cbn [flat_map]. rewrite app_nil_r.
  destruct (Z.of_nat (List.length waveforms) <=? idx); eexists.
  - unfold bind at 1. unfold bind at 1. unfold print at 1. unfold ret at 1.
    unfold bind at 1. unfold lift at 1. rewrite Hraw.
    unfold bind at 1. unfold lift at 1. rewrite Hi.
    unfold bind at 1. unfold lift at 1. rewrite Hp.
    unfold ret. cbn [wave_source wave_name]. repeat split.
  - unfold bind at 1. unfold ret at 1.
    unfold bind at 1. unfold lift at 1. rewrite Hraw.
    unfold bind at 1. unfold lift at 1. rewrite Hi.
    unfold bind at 1. unfold lift at 1. rewrite Hp.
    unfold ret. cbn [wave_source wave_name]. rewrite emit_nil.
    repeat split.
Qed.

Lemma process_waves_completes (name : string) (indices : list Z) :
  Forall (fun idx => 0 <= idx) indices ->
  forall (i : nat) (w : world),
  exists entries,
    process_waves waveforms integrate name i indices w
    = (Ok entries, emit (warnings_for (List.length waveforms) indices) w)
    /\ map wave_source entries
       = map (substituted (List.length waveforms)) indices.
Proof.
  induction 1 as [| idx rest H0 _ IH]; intros i w.
  - exists []. cbn. unfold ret. now rewrite emit_nil.
  - destruct (process_wave_completes name i idx w H0) as [e [He [Hs _]]].
    destruct (IH (S i) (emit (warnings_for (List.length waveforms) [idx]) w))
      as [es [Hes Hss]].
    exists (e :: es). cbn [process_waves]. unfold bind at 1. rewrite He.
    unfold bind at 1. rewrite Hes. unfold ret.
    rewrite emit_emit. cbn [map]. rewrite Hs, Hss. split; [| reflexivity].
    f_equal. f_equal. unfold warnings_for. cbn [flat_map].
    now rewrite app_nil_r.
Qed.

Lemma process_bank_completes (selection : string * list Z) (w : world) :
  well_formed selection ->
  exists b,
    process_bank waveforms integrate selection w
    = (Ok b, emit (warnings_for (List.length waveforms) (snd selection)) w)
    /\ bank_name b = fst selection
    /\ map wave_source (bank_waves b)
       = map (substituted (List.length waveforms)) (snd selection).
Proof.
  destruct selection as [name indices]. intros [Hne H0]. cbn [fst snd] in *.
  destruct (process_waves_completes name indices H0 0%nat w)
    as [entries [He Hs]].
  destruct entries as [| e entries].
  { destruct indices; [congruence | discriminate]. }
  exists (Bank name (e :: entries) (wave_name e)).
  unfold process_bank. unfold bind at 1. rewrite He.
  unfold bind, lift, ret. cbn [map wave_name bank_name bank_waves].
  now rewrite getitem_cons_0.
Qed.

Lemma assemble_banks_completes (selections : list (string * list Z)) :
  Forall well_formed selections ->
  forall w : world,
  exists banks,
    assemble_banks waveforms integrate selections w
    = (Ok banks,
       emit (warnings_for (List.length waveforms)
                          (List.concat (map snd selections))) w)
    /\ map bank_name banks = map fst selections
    /\ map (fun b => map wave_source (bank_waves b)) banks
       = map (fun s => map (substituted (List.length waveforms)) (snd s))
             selections.
Proof.
  induction 1 as [| selection rest Hs _ IH]; intros w.
  - exists []. cbn. unfold ret. now rewrite emit_nil.
  - destruct (process_bank_completes selection w Hs) as [b [Hb [Hn Hw]]].
    destruct (IH (emit (warnings_for (List.length waveforms) (snd selection)) w))
      as [bs [Hbs [Hns Hws]]].
    exists (b :: bs). cbn [assemble_banks]. unfold bind at 1. rewrite Hb.
    unfold bind at 1. rewrite Hbs. unfold ret.
    rewrite emit_emit. cbn [map List.concat]. rewrite Hn, Hns, Hw, Hws.
    split; [| split; reflexivity].
    f_equal. f_equal. unfold warnings_for. now rewrite flat_map_app.
Qed.

End Completion.

(** ** The run of the generator *)

(** C4, on the empty set of waveforms: the first slot finds index 0 out of
    range, prints the warning, substitutes index 0, and the look-up of
    waveform 0 raises [IndexError]; nothing is written. *)
Theorem generate_wavetables_h_no_waveforms (output_path : string)
    (integrate : bool) (w : world) :
  generate_wavetables_h [] output_path integrate w
  = (Err IndexError, emit ["Warning: Wave 0 not found, using wave 0"%string] w).
Proof.
  reflexivity.
Qed.

Lemma prints_only_ret {A} (a : A) : prints_only (ret a).
Proof.
  exists (Ok a), []. intros w. unfold ret. now rewrite emit_nil.
Qed.

Lemma prints_only_lift {A} (r : result A) : prints_only (lift r).
Proof.
  exists r, []. intros w. unfold lift. now rewrite emit_nil.
Qed.

Lemma prints_only_print (line : string) : prints_only (print line).
Proof.
  now exists (Ok tt), [line].
Qed.

Lemma prints_only_bind {A B} (c : M A) (k : A -> M B) :
  prints_only c -> (forall a, prints_only (k a)) -> prints_only (bind c k).
Proof.
  intros [[a | e] [lines Hc]] Hk.
  - destruct (Hk a) as [r [lines' Ha]].
    exists r, (lines ++ lines')%list. intros w.
    unfold bind. now rewrite Hc, Ha, emit_emit.
  - exists (Err e), lines. intros w. unfold bind. now rewrite Hc.
Qed.

Lemma prints_only_process_waves (waveforms : list (list Z)) (integrate : bool)
    (name : string) (indices : list Z) :
  forall i, prints_only (process_waves waveforms integrate name i indices).
Proof.
  induction indices as [| idx rest IH]; intros i; cbn [process_waves].
  - apply prints_only_ret.
  - apply prints_only_bind.
    + unfold process_wave.
      apply prints_only_bind.
      { destruct (Z.of_nat (List.length waveforms) <=? idx).
        - apply prints_only_bind;
            [apply prints_only_print | intros; apply prints_only_ret].
        - apply prints_only_ret. }
      intros idx'. apply prints_only_bind; [apply prints_only_lift |].
      intros raw. apply prints_only_bind; [apply prints_only_lift |].
      intros interpolated. apply prints_only_bind; [apply prints_only_lift |].
      intros processed. apply prints_only_ret.
    + intros e. apply prints_only_bind; [apply IH |].
      intros es. apply prints_only_ret.
Qed.

Lemma prints_only_assemble_banks (waveforms : list (list Z)) (integrate : bool)
    (selections : list (string * list Z)) :
  prints_only (assemble_banks waveforms integrate selections).
Proof.
  induction selections as [| [name indices] rest IH]; cbn [assemble_banks].
  - apply prints_only_ret.
  - apply prints_only_bind.
    + unfold process_bank. apply prints_only_bind.
      * apply prints_only_process_waves.
      * intros entries. apply prints_only_bind; [apply prints_only_lift |].
        intros guard. apply prints_only_ret.
    + intros b. apply prints_only_bind; [apply IH |].
      intros bs. apply prints_only_ret.
Qed.





(** The generator prints, and writes the output file when no exception was
    raised; neither its result nor the lines nor the text depend on the
    world it runs in. *)
Lemma generate_wavetables_h_run (waveforms : list (list Z))
    (output_path : string) (integrate : bool) :
  exists r lines written,
    (r = Ok tt <-> written <> None)
    /\ forall w,
        generate_wavetables_h waveforms output_path integrate w
        = (r, after_run output_path lines written w).
Proof.
  unfold generate_wavetables_h.
  destruct (bank_desc_lines BANK_SELECTIONS) as [desc | e] eqn:Hd;
    [| discriminate].
  destruct (prints_only_assemble_banks waveforms integrate BANK_SELECTIONS)
    as [[banks | e] [lines Ha]].
  - eexists (Ok tt), _, (Some _). split; [split; [discriminate | reflexivity] |].
    intros w. unfold bind at 1. unfold lift at 1.
    unfold bind at 1. rewrite Ha.
    unfold bind, write_file, print. cbn [files stdout emit].
    unfold after_run. rewrite <- !app_assoc. reflexivity.
  - exists (Err e), lines, None. split; [split; [discriminate | congruence] |].
    intros w. unfold bind at 1. unfold lift at 1.
    unfold bind at 1. now rewrite Ha.
Qed.

Lemma print_selections_run (selections : list (string * list Z)) (w : world) :
  print_selections selections w
  = (Ok tt,
     emit (map (fun s => ("  " ++ fst s ++ ": waves " ++ py.repr_list (snd s))%string)
               selections) w).
Proof.
  revert w. induction selections as [| [name indices] rest IH]; intros w.
  - cbn. unfold ret. now rewrite emit_nil.
  - cbn [print_selections map fst snd]. unfold bind, print.
    rewrite IH. unfold emit. cbn [files stdout].
    now rewrite <- app_assoc.
Qed.

(** The script reads one file, prints, and writes one file: its exit
    status, the lines it prints and the text it writes are determined by the
    content of [ppg_data.c] alone. *)
Lemma main_run (script_dir : string) (input : option string) :
  exists r lines written,
    (r = Ok 0 <-> written <> None)
    /\ forall w,
        files w (script_dir ++ "/ppg_data.c")%string = input ->
        main script_dir w
        = (r, after_run (script_dir ++ "/wavetables.h")%string lines written w).
Proof.
  destruct input as [content |].
  - destruct (re.search_data_section (list_ascii_of_string content))
      as [data |] eqn:Hs.
    + destruct (split_waveforms (extract_values data)) as [waveforms | e0] eqn:Hv.
      * destruct (generate_wavetables_h_run
                    waveforms (script_dir ++ "/wavetables.h")%string false)
          as [rg [lg [wg [Hg Hrun]]]].
        destruct rg as [[] | e].
        -- eexists (Ok 0), _, wg. split.
           { split; [intros _; now apply Hg | reflexivity]. }
           intros w Hw. unfold main.
           unfold bind at 1. unfold exists_file at 1. rewrite Hw. cbn [negb].
           unfold bind at 1. unfold print at 1.
           unfold bind at 1. unfold parse_ppg_waveforms.
           unfold bind at 1. unfold read_file at 1. cbn [files]. rewrite Hw, Hs.
           unfold bind at 1. unfold lift at 1. rewrite Hv.
           unfold bind at 1. unfold print at 1. unfold ret at 1.
           unfold bind at 1. unfold print at 1.
           unfold bind at 1. rewrite print_selections_run.
           unfold bind at 1. unfold print at 1.
           unfold bind at 1. rewrite Hrun.
           unfold ret, emit. cbn [files stdout].
           unfold after_run. cbn [files stdout]. rewrite <- !app_assoc.
           reflexivity.
        -- eexists (Err e), _, wg. split.
           { split; [discriminate |].
             intros Hn. apply Hg in Hn. discriminate. }
           intros w Hw. unfold main.
           unfold bind at 1. unfold exists_file at 1. rewrite Hw. cbn [negb].
           unfold bind at 1. unfold print at 1.
           unfold bind at 1. unfold parse_ppg_waveforms.
           unfold bind at 1. unfold read_file at 1. cbn [files]. rewrite Hw, Hs.
           unfold bind at 1. unfold lift at 1. rewrite Hv.
           unfold bind at 1. unfold print at 1. unfold ret at 1.
           unfold bind at 1. unfold print at 1.
           unfold bind at 1. rewrite print_selections_run.
           unfold bind at 1. unfold print at 1.
           unfold bind at 1. rewrite Hrun.
           unfold emit. cbn [files stdout].
           unfold after_run. cbn [files stdout]. rewrite <- !app_assoc.
           reflexivity.
      * exists (Err e0), ["Parsing PPG waveform data..."%string], None.
        split; [split; [discriminate | congruence] |].
        intros w Hw. unfold main.
        unfold bind at 1. unfold exists_file at 1. rewrite Hw. cbn [negb].
        unfold bind at 1. unfold print at 1.
        unfold bind at 1. unfold parse_ppg_waveforms.
        unfold bind at 1. unfold read_file at 1. cbn [files]. rewrite Hw, Hs.
        unfold bind at 1. unfold lift at 1. rewrite Hv.
        reflexivity.
    + exists (Err ValueError), ["Parsing PPG waveform data..."%string], None.
      split; [split; [discriminate | congruence] |].
      intros w Hw. unfold main.
      unfold bind at 1. unfold exists_file at 1. rewrite Hw. cbn [negb].
      unfold bind at 1. unfold print at 1.
      unfold bind at 1. unfold parse_ppg_waveforms.
      unfold bind at 1. unfold read_file at 1. cbn [files]. rewrite Hw, Hs.
      reflexivity.
  - exists (Ok 1),
      [("Error: " ++ (script_dir ++ "/ppg_data.c") ++ " not found")%string], None.
    split; [split; [discriminate | congruence] |].
    intros w Hw. unfold main.
    unfold bind at 1. unfold exists_file at 1. rewrite Hw. cbn [negb].
    reflexivity.
Qed.

(** C8: two runs of the script in worlds that hold the same [ppg_data.c]
    end with the same exit status or exception, print the same lines, and
    write the same text to [wavetables.h] (or both write nothing); the text
    is written exactly when the exit status is 0. *)
Theorem main_deterministic (script_dir : string) (w1 w2 : world) :
  files w1 (script_dir ++ "/ppg_data.c")%string
  = files w2 (script_dir ++ "/ppg_data.c")%string ->
  exists r lines written,
    main script_dir w1
    = (r, after_run (script_dir ++ "/wavetables.h")%string lines written w1)
    /\ main script_dir w2
       = (r, after_run (script_dir ++ "/wavetables.h")%string lines written w2)
    /\ (r = Ok 0 <-> written <> None).
Proof.
  intros H.
  destruct (main_run script_dir (files w2 (script_dir ++ "/ppg_data.c")%string))
    as [r [lines [written [Hr Hrun]]]].
  exists r, lines, written. repeat split.
  - now apply Hrun.
  - now apply Hrun.
  - apply Hr.
  - apply Hr.
Qed.
(** ** Completion of the run *)

Lemma BANK_SELECTIONS_well_formed : Forall well_formed BANK_SELECTIONS.
Proof.
  unfold BANK_SELECTIONS, well_formed.
  repeat (constructor;
          [split; [discriminate | repeat (constructor; [lia |]); constructor] |]).
  constructor.
Qed.

Section RunCompletes.

Variable waveforms : list (list Z).
Variable integrate : bool.

Hypothesis some_waveform : waveforms <> [].

Hypothesis raw_lengths :
  Forall (fun wave => List.length wave = PPG_SAMPLES) waveforms.

(** With at least one waveform extracted, the assembler builds every bank:
    an out-of-range index costs a warning and is served from waveform 0. *)
Lemma assemble_banks_total (selections : list (string * list Z)) :
  Forall well_formed selections ->
  exists banks,
    (forall w,
        assemble_banks waveforms integrate selections w
        = (Ok banks,
           emit (warnings_for (List.length waveforms)
                              (List.concat (map snd selections))) w))
    /\ map bank_name banks = map fst selections
    /\ map (fun b => map wave_source (bank_waves b)) banks
       = map (fun s => map (substituted (List.length waveforms)) (snd s))
             selections
    /\ Forall (fun b => Forall self_wrap (bank_waves b) /\ closes_with_first b)
              banks.
Proof.
  intros Hs.
  destruct (prints_only_assemble_banks waveforms integrate selections)
    as [r [lines Hr]].
  destruct (assemble_banks_completes waveforms integrate some_waveform
              raw_lengths selections Hs empty_world)
    as [banks [Hb [Hn Hw]]].
  rewrite Hr in Hb. injection Hb as -> Hl. cbn in Hl. subst lines.
  exists banks. repeat split; try assumption.
  eapply assemble_banks_wraps. apply (Hr empty_world).
Qed.

(** The generator then writes the complete file: sixteen banks in the
    configured order, eight self-wrapped waves of 260 samples in each. *)
Lemma generate_wavetables_h_completes (output_path : string) :
  exists banks head,
    List.length banks = NUM_BANKS
    /\ map bank_name banks = map fst BANK_SELECTIONS
    /\ Forall (fun b =>
                 List.length (bank_waves b) = WAVES_PER_BANK
                 /\ Forall self_wrap (bank_waves b)
                 /\ closes_with_first b) banks
    /\ map (fun b => map wave_source (bank_waves b)) banks
       = map (fun s => map (substituted (List.length waveforms)) (snd s))
             BANK_SELECTIONS
    /\ forall w,
        generate_wavetables_h waveforms output_path integrate w
        = (Ok tt,
           after_run output_path
             (warnings_for (List.length waveforms)
                           (List.concat (map snd BANK_SELECTIONS))
              ++ [("Generated " ++ output_path)%string; size_report])
             (Some (file_text head banks
                              (master_array (map fst BANK_SELECTIONS))))
             w).
Proof.
  destruct (assemble_banks_total BANK_SELECTIONS BANK_SELECTIONS_well_formed)
    as [banks [Hrun [Hn [Hw Hg]]]].
  destruct (bank_desc_lines BANK_SELECTIONS) as [desc | e] eqn:Hd;
    [| discriminate].
  exists banks,
    (header (List.length BANK_SELECTIONS) (String.concat nl desc)).
  assert (Hlen : List.length banks = NUM_BANKS).
  { apply (f_equal (@List.length string)) in Hn.
    now rewrite !length_map in Hn. }
  split; [exact Hlen |].
  split; [exact Hn |].
  split.
  { assert (Hl : map (fun b => List.length (bank_waves b)) banks
                 = map (fun s => List.length (snd s)) BANK_SELECTIONS).
    { apply (f_equal (map (@List.length Z))) in Hw.
      rewrite !map_map in Hw.
      erewrite map_ext in Hw; [rewrite Hw |].
      - apply map_ext. intros s. apply length_map.
      - intros b. cbn. now rewrite length_map. }
    apply Forall_forall. intros b Hb.
    rewrite Forall_forall in Hg. destruct (Hg b Hb) as [H1 H2].
    split; [| now split].
    assert (Hin : In (List.length (bank_waves b))
                     (map (fun s => List.length (snd s)) BANK_SELECTIONS)).
    { rewrite <- Hl. apply (in_map (fun b => List.length (bank_waves b))), Hb. }
    cbn in Hin. unfold WAVES_PER_BANK.
    repeat (destruct Hin as [Hin | Hin]; [now symmetry |]).
    destruct Hin. }
  split; [exact Hw |].
  intros w. unfold generate_wavetables_h. rewrite Hd.
  unfold bind at 1. unfold lift at 1.
  unfold bind at 1. rewrite Hrun.
  unfold bind, write_file, print. cbn [files stdout emit].
  unfold after_run. rewrite <- !app_assoc. reflexivity.
Qed.

End RunCompletes.

(** With a waveform extracted, the script runs to the end: exit status 0
    and [wavetables.h] written. *)
Lemma main_with_waveforms (script_dir content : string) (data : list ascii)
    (waveforms : list (list Z)) (w : world) :
  files w (script_dir ++ "/ppg_data.c")%string = Some content ->
  re.search_data_section (list_ascii_of_string content) = Some data ->
  split_waveforms (extract_values data) = Ok waveforms ->
  waveforms <> [] ->
  exists lines text,
    main script_dir w
    = (Ok 0, after_run (script_dir ++ "/wavetables.h")%string lines (Some text) w).
Proof.
  intros Hw Hs Hv Hne.
  destruct (split_waveforms_ok _ _ Hv) as [_ [Hl _]].
  destruct (generate_wavetables_h_completes
              waveforms false Hne Hl (script_dir ++ "/wavetables.h")%string)
    as [banks [head [_ [_ [_ [_ Hrun]]]]]].
  eexists _, _. unfold main.
  unfold bind at 1. unfold exists_file at 1. rewrite Hw. cbn [negb].
  unfold bind at 1. unfold print at 1.
  unfold bind at 1. unfold parse_ppg_waveforms.
  unfold bind at 1. unfold read_file at 1. cbn [files]. rewrite Hw, Hs.
  unfold bind at 1. unfold lift at 1. rewrite Hv.
  unfold bind at 1. unfold print at 1. unfold ret at 1.
  unfold bind at 1. unfold print at 1.
  unfold bind at 1. rewrite print_selections_run.
  unfold bind at 1. unfold print at 1.
  unfold bind at 1. rewrite Hrun.
  unfold ret, emit. cbn [files stdout].
  unfold after_run. cbn [files stdout]. rewrite <- !app_assoc.
  reflexivity.
Qed.

(** X19: a source whose array holds at least 64 numbers, each of them fitting
    8 bits, in lines of at most 4300 characters (no number is then beyond
    the length [int] accepts), is processed to the end: the script exits with
    status 0 and [wavetables.h] is written. *)
Lemma main_completes (script_dir content : string) (data : list ascii) (w : world) :
  files w (script_dir ++ "/ppg_data.c")%string = Some content ->
  re.search_data_section (list_ascii_of_string content) = Some data ->
  Forall (fun line => (List.length line <= 4300)%nat) (py.split_lines data) ->
  (PPG_SAMPLES <= List.length (extract_values data))%nat ->
  Forall (fun v => 0 <= v <= 255) (extract_values data) ->
  exists lines text,
    main script_dir w
    = (Ok 0, after_run (script_dir ++ "/wavetables.h")%string lines (Some text) w).
Proof.
  intros Hw Hs _ Hn Hb.
  assert (Hp : Forall (fun v => 0 <= v <= 255)
                 (firstn (List.length (extract_values data) / PPG_SAMPLES
                          * PPG_SAMPLES) (extract_values data))).
  { rewrite <- (firstn_skipn
                  (List.length (extract_values data) / PPG_SAMPLES * PPG_SAMPLES)
                  (extract_values data)) in Hb.
    now apply Forall_app in Hb. }
  pose proof (split_waveforms_bytes _ Hp) as Hv.
  apply (main_with_waveforms script_dir content data _ w Hw Hs Hv).
  intros E. apply (f_equal (@List.length (list Z))) in E.
  rewrite chunks_count in E. cbn [List.length] in E.
  apply Nat.div_small_iff in E; [lia | discriminate].
Qed.

(** Two worlds with the same source, one waveform of 64 samples; the second
    world also holds a stale output file and an earlier line of output.  Both
    runs exit with status 0, print the same lines and write the same text. *)
Lemma main_deterministic_witness :
  let source :=
    string_of_list_ascii
      (list_ascii_of_string "const unsigned char ppg_waveforms_data[] = {"
       ++ List.concat (repeat (list_ascii_of_string " 128,") 64)
       ++ list_ascii_of_string "};") in
  let w1 :=
    World (fun p => if String.eqb p "/vapo2/ppg_data.c" then Some source else None)
          [] in
  let w2 :=
    World (fun p =>
             if String.eqb p "/vapo2/ppg_data.c" then Some source
             else if String.eqb p "/vapo2/wavetables.h" then Some "stale"%string
             else None)
          ["an earlier line"%string] in
  exists lines text,
    main "/vapo2" w1
    = (Ok 0, after_run "/vapo2/wavetables.h" lines (Some text) w1)
    /\ main "/vapo2" w2
       = (Ok 0, after_run "/vapo2/wavetables.h" lines (Some text) w2).
Proof.
  intros source w1 w2.
  destruct (main_deterministic "/vapo2" w1 w2 eq_refl)
    as [r [lines [written [H1 [H2 Hr]]]]].
  destruct (main_with_waveforms
              "/vapo2" source
              (List.concat (repeat (list_ascii_of_string " 128,") 64))
              [constant_wave 128] w1)
    as [lines' [text' Hrun]].
  - reflexivity.
  - vm_compute. reflexivity.
  - vm_compute. reflexivity.
  - discriminate.
  - assert (E : r = Ok 0) by congruence.
    destruct written as [text |].
    + exists lines, text. rewrite E in H1, H2. now split.
    + exfalso. now apply (proj1 Hr E).
Defined.

(** The script does not touch its source: the output path differs from the
    source path. *)
Lemma output_is_not_source (script_dir : string) :
  String.eqb (script_dir ++ "/ppg_data.c") (script_dir ++ "/wavetables.h")
  = false.
Proof.
  induction script_dir as [| c s IH]; [reflexivity |].
  cbn [append String.eqb]. now rewrite Ascii.eqb_refl.
Qed.

(** X20: run twice in a row, the script ends the same way, prints the same lines
    and writes the same text both times. *)
Lemma main_twice (script_dir : string) (w : world) :
  exists r lines written,
    main script_dir w
    = (r, after_run (script_dir ++ "/wavetables.h")%string lines written w)
    /\ main script_dir (snd (main script_dir w))
       = (r, after_run (script_dir ++ "/wavetables.h")%string lines written
                       (snd (main script_dir w))).
Proof.
  destruct (main_run script_dir (files w (script_dir ++ "/ppg_data.c")%string))
    as [r [lines [written [_ Hrun]]]].
  exists r, lines, written.
  pose proof (Hrun w eq_refl) as H1. split; [exact H1 |].
  apply Hrun. rewrite H1. cbn [snd after_run files].
  destruct written as [text |]; [| reflexivity].
  now rewrite output_is_not_source.
Qed.

(** ** Worked examples *)

(** A source with fewer than 64 numbers yields no waveform, and the script
    stops with [IndexError] in the first slot of the first bank. *)
Example main_on_short_source :
  let w :=
    World (fun p =>
             if String.eqb p "/vapo2/ppg_data.c"
             then Some "const unsigned char ppg_waveforms_data[] = { 128, 128 };"%string
             else None)
          [] in
  fst (main "/vapo2" w) = Err IndexError
  /\ files (snd (main "/vapo2" w)) "/vapo2/wavetables.h"%string = None
  /\ last (stdout (snd (main "/vapo2" w))) EmptyString
     = "Warning: Wave 0 not found, using wave 0"%string.
Proof.
  vm_compute. repeat split.
Qed.

(** The scenario of the specification: the four raw samples convert to
    [-32767, -16384, 0, 16384], and the fit through the extended waveform
    takes the value of the first sample at phase 0 and again at phase 1. *)
Example seam_of_four_samples :
  let wave := convert_to_signed16 [0; 64; 128; 192] in
  let x_old := np.linspace 0%Qc 1%Qc 4 false in
  let x_extended := x_old ++ map (fun x => (x + 1)%Qc) (firstn 4 x_old) in
  wave = [-32767; -16384; 0; 16384]
  /\ match scipy.interp1d_cubic x_extended
             (np.astype_float64 (wave ++ firstn 4 wave)) with
     | Ok f => values_of (scipy.call f [0%Qc; 1%Qc])
     | Err _ => None
     end = Some [inject_Z (-32767); inject_Z (-32767)].
Proof.
  vm_compute. split; reflexivity.
Qed.

(** ** The fit across the seam *)


















(** * Further properties of the generator *)

(** ** Rounding and clipping *)

Lemma trunc_between (lo hi : Z) (q : Qc) :
  (np.of_Z lo <= q)%Qc -> (q <= np.of_Z hi)%Qc -> lo <= np.trunc q <= hi.
Proof.
  unfold Qcle. rewrite !of_Z_this. unfold Qle, np.trunc. cbn [Qnum Qden inject_Z].
  rewrite !Z.mul_1_r. intros Hlo Hhi. split.
  - rewrite <- (Z.quot_mul lo (Zpos (Qden q))) by discriminate.
    apply Z.quot_le_mono; lia.
  - rewrite <- (Z.quot_mul hi (Zpos (Qden q))) by discriminate.
    apply Z.quot_le_mono; lia.
Qed.

Lemma minimum_le_r (x y : Qc) : (np.minimum x y <= y)%Qc.
Proof.
  unfold np.minimum. destruct (x ?= y)%Qc eqn:E.
  - apply Qceq_alt in E. subst. apply Qcle_refl.
  - apply Qclt_le_weak. now apply Qclt_alt.
  - apply Qcle_refl.
Qed.

Lemma minimum_ge (x y z : Qc) :
  (z <= x)%Qc -> (z <= y)%Qc -> (z <= np.minimum x y)%Qc.
Proof.
  intros Hx Hy. unfold np.minimum. now destruct (x ?= y)%Qc.
Qed.

Lemma clip1_between (lo hi : Z) (x : Qc) :
  lo <= hi ->
  (np.of_Z lo <= np.clip1 lo hi x)%Qc /\ (np.clip1 lo hi x <= np.of_Z hi)%Qc.
Proof.
  intros H. unfold np.clip1. split; [| apply minimum_le_r].
  apply minimum_ge; [apply maximum_ge_r |].
  apply Qcle_alt. rewrite of_Z_compare. now apply Z.compare_le_iff.
Qed.

(** A value inside the bounds is left as it is. *)
Lemma clip1_inside (lo hi : Z) (x : Qc) :
  (np.of_Z lo <= x)%Qc -> (x <= np.of_Z hi)%Qc -> np.clip1 lo hi x = x.
Proof.
  intros Hlo Hhi. unfold np.clip1.
  assert (E : np.maximum x (np.of_Z lo) = x).
  { unfold np.maximum. destruct (x ?= np.of_Z lo)%Qc eqn:C; try reflexivity.
    apply Qclt_alt in C. exfalso. eapply Qclt_not_le; eassumption. }
  rewrite E. unfold np.minimum.
  destruct (x ?= np.of_Z hi)%Qc eqn:C; try reflexivity.
  apply Qcgt_alt in C. exfalso. eapply Qclt_not_le; eassumption.
Qed.

(** ** Anti-aliasing integrator *)

Lemma Qcabs_ge (v : Qc) : (v <= np.Qcabs v)%Qc.
Proof.
  unfold np.Qcabs. destruct (v ?= 0)%Qc eqn:E; try apply Qcle_refl.
  apply Qclt_alt, Qclt_le_weak in E.
  eapply Qcle_trans; [exact E |]. apply Qcopp_le_compat in E. exact E.
Qed.

Lemma Qcabs_ge_opp (v : Qc) : (- np.Qcabs v <= v)%Qc.
Proof.
  unfold np.Qcabs. destruct (v ?= 0)%Qc eqn:E.
  - apply Qceq_alt in E. subst. apply Qcle_refl.
  - rewrite Qcopp_involutive. apply Qcle_refl.
  - apply Qcgt_alt, Qclt_le_weak in E.
    eapply Qcle_trans; [| exact E]. apply Qcopp_le_compat in E. exact E.
Qed.

(** Every value of an array lies between minus its peak and its peak. *)
Lemma peak_bounds (a : list Qc) (m : Qc) :
  np.max (np.abs a) = Some m ->
  Forall (fun v => (- m <= v)%Qc /\ (v <= m)%Qc) a.
Proof.
  destruct a as [| x r]; [constructor |].
  unfold np.max, np.abs. cbn [map]. intros [= H].
  destruct (fold_maximum_ge (map np.Qcabs r) (np.Qcabs x)) as [Hx Hr].
  rewrite H in Hx, Hr.
  assert (B : forall v, (np.Qcabs v <= m)%Qc -> (- m <= v)%Qc /\ (v <= m)%Qc).
  { intros v Hv. split.
    - eapply Qcle_trans; [| apply Qcabs_ge_opp]. now apply Qcopp_le_compat.
    - eapply Qcle_trans; [apply Qcabs_ge | exact Hv]. }
  constructor; [now apply B |].
  apply Forall_forall. intros v Hv. apply B.
  rewrite Forall_forall in Hr. apply Hr, in_map, Hv.
Qed.

(** After the normalization no value exceeds 30000 in magnitude. *)
Lemma normalize_headroom (a b : list Qc) :
  normalize a = Ok b ->
  Forall (fun v => (np.of_Z (-30000) <= v)%Qc /\ (v <= np.of_Z 30000)%Qc) b.
Proof.
  unfold normalize.
  destruct (np.max (np.abs a)) as [m |] eqn:Hm; [| discriminate].
  pose proof (peak_bounds a m Hm) as Hb.
  assert (N : (np.of_Z (-30000) <= 0)%Qc /\ (0 <= np.of_Z 30000)%Qc)
    by (split; apply Qcle_alt; discriminate).
  destruct (m ?= 0)%Qc eqn:C.
  - intros [= <-]. apply Qceq_alt in C. subst m.
    apply Forall_forall. intros v Hv. rewrite Forall_forall in Hb.
    destruct (Hb v Hv) as [H1 H2]. split.
    + eapply Qcle_trans; [apply N | exact H1].
    + eapply Qcle_trans; [exact H2 | apply N].
  - intros [= <-]. apply Qclt_alt, Qclt_le_weak in C.
    apply Forall_forall. intros v Hv. rewrite Forall_forall in Hb.
    destruct (Hb v Hv) as [H1 H2]. split.
    + eapply Qcle_trans; [apply N |].
      eapply Qcle_trans; [| exact H1].
      apply Qcopp_le_compat in C. exact C.
    + eapply Qcle_trans; [exact H2 |].
      eapply Qcle_trans; [exact C | apply N].
  - apply Qcgt_alt in C.
    assert (Hne : m <> 0%Qc) by (intros ->; now apply Qclt_not_eq in C).
    unfold divide, Qc_eq_bool. destruct (Qc_eq_dec m 0); [contradiction |].
    intros [= <-]. apply Forall_forall. intros w Hw.
    apply in_map_iff in Hw. destruct Hw as [v [<- Hv]].
    rewrite Forall_forall in Hb. destruct (Hb v Hv) as [H1 H2].
    assert (K : (0 <= np.of_Z 30000 / m)%Qc).
    { destruct (Qclt_le_dec (np.of_Z 30000 / m) 0) as [Hneg | Hpos];
        [| exact Hpos].
      apply (Qcmult_lt_compat_r _ _ m C) in Hneg.
      replace (np.of_Z 30000 / m * m)%Qc with (np.of_Z 30000) in Hneg
        by (field; exact Hne).
      replace (0 * m)%Qc with 0%Qc in Hneg by ring.
      apply Qclt_alt in Hneg. discriminate. }
    split.
    + replace (np.of_Z (-30000)) with (- m * (np.of_Z 30000 / m))%Qc.
      * now apply Qcmult_le_compat_r.
      * transitivity (- np.of_Z 30000)%Qc; [field; exact Hne |].
        now apply Qc_is_canon.
    + replace (np.of_Z 30000) with (m * (np.of_Z 30000 / m))%Qc at 2
        by (field; exact Hne).
      now apply Qcmult_le_compat_r.
Qed.

(** X1: the integrator raises on the empty waveform only; otherwise it returns
    as many samples as it was given, none of them beyond 30000 in
    magnitude. *)
Theorem integrate_wave_headroom (wave : list Qc) :
  match integrate_wave wave with
  | Ok out =>
      List.length out = List.length wave
      /\ Forall (fun s => -30000 <= s <= 30000) out
  | Err e => wave = [] /\ e = IndexError
  end.
Proof.
  destruct wave as [| x wave]; [now split |].
  destruct (integrate_wave_succeeds (x :: wave)) as [out H]; [discriminate |].
  rewrite H. split; [now apply integrate_wave_length |].
  unfold integrate_wave in H.
  destruct (remove_drift (x :: wave)) as [a | e]; [| discriminate].
  destruct (normalize a) as [b | e] eqn:Hb; [| discriminate].
  injection H as <-. apply normalize_headroom in Hb.
  unfold np.astype_int16, np.clip. rewrite map_map.
  apply Forall_forall. intros s Hs. apply in_map_iff in Hs.
  destruct Hs as [v [<- Hv]]. rewrite Forall_forall in Hb.
  destruct (Hb v Hv) as [H1 H2].
  rewrite clip1_inside.
  - now apply trunc_between.
  - eapply Qcle_trans; [| exact H1]. apply Qcle_alt. discriminate.
  - eapply Qcle_trans; [exact H2 |]. apply Qcle_alt. discriminate.
Qed.

Lemma combine_snoc {A B} (l : list A) (l' : list B) (a : A) (b : B) :
  List.length l = List.length l' ->
  combine (l ++ [a]) (l' ++ [b]) = combine l l' ++ [(a, b)].
Proof.
  revert l'. induction l as [| x l IH]; intros [| y l'] H; try discriminate.
  - reflexivity.
  - cbn. f_equal. apply IH. now injection H.
Qed.

(** The drift-removed cumulative sum of two or more samples ends in 0: the
    ramp takes the last cumulative value at the last sample. *)
Lemma remove_drift_ends_at_zero (x y : Qc) (rest : list Qc) :
  exists a, remove_drift (x :: y :: rest) = Ok (a ++ [0%Qc]).
Proof.
  rewrite remove_drift_nonempty.
  set (integrated := cumulative (x :: y :: rest)).
  set (final := last integrated 0%Qc).
  assert (Hn : List.length integrated = S (S (List.length rest)))
    by (unfold integrated, cumulative, np.cumsum;
        now rewrite cumsum_from_length).
  assert (Hi : exists init,
             integrated = init ++ [final]
             /\ List.length init = S (List.length rest)).
  { exists (removelast integrated). split.
    - apply app_removelast_last. intros E. rewrite E in Hn. discriminate.
    - rewrite removelast_firstn_len, length_firstn, Hn. cbn [Nat.pred]. lia. }
  destruct Hi as [init [Hi Li]].
  unfold dc_ramp. rewrite Hn. unfold np.linspace.
  cbn [Nat.pred andb Nat.ltb Nat.leb]. unfold np.set_last.
  set (ys := map _ (np.arange (S (S (List.length rest))))).
  assert (Hy : List.length ys = S (S (List.length rest)))
    by (unfold ys; now rewrite length_map, arange_length).
  clearbody ys final integrated. subst integrated.
  destruct ys as [| y0 ys']; [discriminate |].
  unfold subtract. rewrite combine_snoc, map_app.
  - eexists. f_equal. f_equal. cbn [map fst snd]. f_equal. ring.
  - rewrite removelast_firstn_len, length_firstn, Hy, Li. cbn [Nat.pred]. lia.
Qed.

Lemma normalize_snoc_zero (a b : list Qc) :
  normalize (a ++ [0%Qc]) = Ok b -> exists b', b = b' ++ [0%Qc].
Proof.
  unfold normalize.
  destruct (np.max (np.abs (a ++ [0%Qc]))) as [m |]; [| discriminate].
  destruct (m ?= 0)%Qc.
  - intros [= <-]. now exists a.
  - intros [= <-]. now exists a.
  - destruct (divide (np.of_Z 30000) m) as [k | e]; [| discriminate].
    intros [= <-]. rewrite map_app. eexists. f_equal. cbn [map]. f_equal. ring.
Qed.

(** X2: in integration mode a table of two or more samples always ends with the
    sample 0. *)
Theorem integrate_wave_ends_at_zero (x y : Qc) (rest : list Qc) :
  exists out, integrate_wave (x :: y :: rest) = Ok (out ++ [0]).
Proof.
  destruct (remove_drift_ends_at_zero x y rest) as [a Ha].
  destruct (integrate_wave_succeeds (x :: y :: rest)) as [out H];
    [discriminate |].
  rewrite H. unfold integrate_wave in H. rewrite Ha in H.
  destruct (normalize (a ++ [0%Qc])) as [b | e] eqn:Hb; [| discriminate].
  destruct (normalize_snoc_zero a b Hb) as [b' ->].
  injection H as <-. unfold np.astype_int16, np.clip.
  rewrite !map_app. now eexists.
Qed.

(** ** Guard appender *)

(** X3: with at least [num_guard] samples in the table, the guarded table keeps
    every sample in place, and a read of up to [num_guard] samples past the
    end returns the samples at the start. *)
Theorem add_guard_samples_reads (wave : list Z) (num_guard i j : nat) :
  (num_guard <= List.length wave)%nat ->
  (i < List.length wave)%nat ->
  (j < num_guard)%nat ->
  List.length (add_guard_samples wave num_guard)
  = (List.length wave + num_guard)%nat
  /\ nth_error (add_guard_samples wave num_guard) i = nth_error wave i
  /\ nth_error (add_guard_samples wave num_guard) (List.length wave + j)
     = nth_error wave j.
Proof.
  intros Hg Hi Hj. unfold add_guard_samples. repeat split.
  - rewrite length_app, length_firstn. lia.
  - now apply nth_error_app1.
  - rewrite nth_error_app2 by lia.
    replace (List.length wave + j - List.length wave)%nat with j by lia.
    rewrite nth_error_firstn.
    now replace (j <? num_guard)%nat with true
      by (symmetry; apply Nat.ltb_lt; exact Hj).
Qed.

(** The table [10, 20, 30, 40, 50] with a guard of two samples. *)
Lemma add_guard_samples_reads_witness :
  List.length (add_guard_samples [10; 20; 30; 40; 50] 2) = 7%nat
  /\ nth_error (add_guard_samples [10; 20; 30; 40; 50] 2) 3 = Some 40
  /\ nth_error (add_guard_samples [10; 20; 30; 40; 50] 2) 6 = Some 20.
Proof.
  apply (add_guard_samples_reads [10; 20; 30; 40; 50] 2 3 1); cbn; lia.
Defined.

(** X4: a table shorter than the guard gets a shorter guard: the whole table
    once more. *)
Theorem add_guard_samples_short (wave : list Z) (num_guard : nat) :
  List.length (add_guard_samples wave num_guard)
  = (List.length wave + Nat.min num_guard (List.length wave))%nat
  /\ add_guard_samples wave (List.length wave + num_guard) = wave ++ wave.
Proof.
  unfold add_guard_samples. split.
  - now rewrite length_app, length_firstn.
  - f_equal. apply firstn_all2. lia.
Qed.

(** ** Signal converter *)

(** X5: only the raw sample 0 is clipped: on the samples 1 to 255 the converter
    is the affine map [(v - 128) * 256]. *)
Theorem convert_to_signed16_affine (wave : list Z) :
  Forall (fun v => 1 <= v <= 255) wave ->
  convert_to_signed16 wave = map (fun v => (v - 128) * 256) wave.
Proof.
  intros H. rewrite convert_to_signed16_samples.
  apply map_ext_in. intros v Hv. rewrite Forall_forall in H.
  specialize (H v Hv). unfold convert_sample. lia.
Qed.

Lemma convert_to_signed16_affine_witness :
  convert_to_signed16 [1; 128; 255] = [-32512; 0; 32512].
Proof.
  apply (convert_to_signed16_affine [1; 128; 255]).
  repeat constructor; lia.
Defined.

(** X6: the converter keeps the order of samples: a larger raw sample never
    converts to a smaller value. *)
Theorem convert_to_signed16_monotone (v w : Z) :
  v <= w ->
  hd 0 (convert_to_signed16 [v]) <= hd 0 (convert_to_signed16 [w]).
Proof.
  intros H. rewrite !convert_to_signed16_samples. cbn [map hd].
  unfold convert_sample. lia.
Qed.

Lemma convert_to_signed16_monotone_witness :
  hd 0 (convert_to_signed16 [0]) <= hd 0 (convert_to_signed16 [1]).
Proof.
  apply (convert_to_signed16_monotone 0 1). lia.
Defined.

(** ** Legacy waveform extractor: the text *)

Lemma split_lines_from_app (cur a b : list ascii) :
  py.split_lines_from cur (a ++ "010"%char :: b)
  = py.split_lines_from cur a ++ py.split_lines b.
Proof.
  revert cur. induction a as [| c a IH]; intros cur.
  - cbn [app py.split_lines_from]. now rewrite Ascii.eqb_refl.
  - cbn [app py.split_lines_from].
    destruct (Ascii.eqb c "010"%char).
    + now rewrite IH.
    + apply IH.
Qed.

Lemma fold_values (f : list ascii -> list Z) (lines : list (list ascii))
    (acc : list Z) :
  fold_left (fun values line => values ++ f line) lines acc
  = acc ++ flat_map f lines.
Proof.
  revert acc. induction lines as [| l lines IH]; intros acc; cbn.
  - now rewrite app_nil_r.
  - now rewrite IH, app_assoc.
Qed.

Lemma extract_values_flat_map (data : list ascii) :
  extract_values data
  = flat_map (fun line => map py.int (re.findall_digits (re.sub_comment line)))
             (py.split_lines data).
Proof.
  unfold extract_values.
  now rewrite (fold_values
                 (fun line => map py.int (re.findall_digits (re.sub_comment line)))).
Qed.

(** X7: the values are extracted line by line, in the order of the lines: a line
    break separates what comes before it from what comes after it. *)
Theorem extract_values_line_break (a b : list ascii) :
  extract_values (a ++ "010"%char :: b) = extract_values a ++ extract_values b.
Proof.
  rewrite !extract_values_flat_map. unfold py.split_lines.
  now rewrite split_lines_from_app, flat_map_app.
Qed.

Lemma split_lines_from_single (cur s : list ascii) :
  Forall (fun c => c <> "010"%char) s ->
  py.split_lines_from cur s = [rev cur ++ s].
Proof.
  intros H. revert cur. induction H as [| c s Hc _ IH]; intros cur.
  - cbn. now rewrite app_nil_r.
  - cbn [py.split_lines_from].
    destruct (Ascii.eqb_spec c "010"%char) as [E | _]; [contradiction |].
    rewrite IH. cbn [rev]. now rewrite <- app_assoc.
Qed.

Lemma sub_comment_cuts (code rest : list ascii) :
  Forall (fun c => c <> "/"%char) code ->
  re.sub_comment (code ++ "/"%char :: "/"%char :: rest) = code.
Proof.
  induction 1 as [| c code Hc _ IH]; [reflexivity |].
  cbn [app re.sub_comment].
  destruct (Ascii.eqb_spec c "/"%char) as [E | _]; [contradiction |].
  cbn [andb]. rewrite IH.
  now destruct code.
Qed.

Lemma sub_comment_keeps (code : list ascii) :
  Forall (fun c => c <> "/"%char) code -> re.sub_comment code = code.
Proof.
  induction 1 as [| c code Hc _ IH]; [reflexivity |].
  cbn [re.sub_comment].
  destruct (Ascii.eqb_spec c "/"%char) as [E | _]; [contradiction |].
  cbn [andb]. rewrite IH. now destruct code.
Qed.

(** X8: numbers in a comment are not extracted: what follows [//] on a line
    adds no value. *)
Theorem extract_values_ignores_comment (code comment : list ascii) :
  Forall (fun c => c <> "/"%char /\ c <> "010"%char) code ->
  Forall (fun c => c <> "010"%char) comment ->
  extract_values (code ++ "/"%char :: "/"%char :: comment)
  = extract_values code.
Proof.
  intros Hcode Hcomment.
  assert (H1 : Forall (fun c => c <> "/"%char) code)
    by (eapply Forall_impl; [| exact Hcode]; now intros c [? ?]).
  assert (H2 : Forall (fun c => c <> "010"%char) code)
    by (eapply Forall_impl; [| exact Hcode]; now intros c [? ?]).
  rewrite !extract_values_flat_map. unfold py.split_lines.
  rewrite !split_lines_from_single.
  - cbn [rev app flat_map]. now rewrite sub_comment_cuts, sub_comment_keeps.
  - exact H2.
  - apply Forall_app. split; [exact H2 |].
    constructor; [discriminate |]. constructor; [discriminate | exact Hcomment].
Qed.

(** The line [1, 2, // wave 3]. *)
Lemma extract_values_ignores_comment_witness :
  extract_values (list_ascii_of_string "1, 2, // wave 3")
  = extract_values (list_ascii_of_string "1, 2, ").
Proof.
  apply (extract_values_ignores_comment
           (list_ascii_of_string "1, 2, ") (list_ascii_of_string " wave 3")).
  - repeat constructor; discriminate.
  - repeat constructor; discriminate.
Defined.

Lemma strip_prefix_app (p s : list ascii) : re.strip_prefix p (p ++ s) = Some s.
Proof.
  induction p as [| c p IH]; [reflexivity |].
  cbn [app re.strip_prefix]. now rewrite Ascii.eqb_refl.
Qed.

Lemma after_first_here (lit s : list ascii) :
  re.after_first lit (lit ++ s) = Some s.
Proof.
  assert (U : re.after_first lit (lit ++ s)
              = match re.strip_prefix lit (lit ++ s) with
                | Some r => Some r
                | None =>
                    match lit ++ s with
                    | [] => None
                    | _ :: s' => re.after_first lit s'
                    end
                end)
    by now destruct (lit ++ s).
  now rewrite U, strip_prefix_app.
Qed.

Lemma span_not_semicolon_app (body rest : list ascii) :
  Forall (fun c => c <> ";"%char) body ->
  re.span_not_semicolon (body ++ ";"%char :: rest) = (body, ";"%char :: rest).
Proof.
  induction 1 as [| c body Hc _ IH]; [reflexivity |].
  cbn [app re.span_not_semicolon].
  destruct (Ascii.eqb_spec c ";"%char) as [E | _]; [contradiction |].
  now rewrite IH.
Qed.

Lemma skip_spaces_app (spaces rest : list ascii) :
  Forall (fun c => re.is_space c = true) spaces ->
  re.skip_spaces (spaces ++ "{"%char :: rest) = "{"%char :: rest.
Proof.
  induction 1 as [| c spaces Hc _ IH]; [reflexivity |].
  cbn [app re.skip_spaces]. now rewrite Hc.
Qed.

Lemma match_assignment_body (spaces body rest : list ascii) :
  Forall (fun c => re.is_space c = true) spaces ->
  Forall (fun c => c <> ";"%char) body ->
  body <> [] ->
  re.match_assignment
    ("="%char :: spaces ++ "{"%char :: body ++ "}"%char :: ";"%char :: rest)
  = Some body.
Proof.
  intros Hs Hb Hne. unfold re.match_assignment.
  cbn [Ascii.eqb Bool.eqb]. rewrite skip_spaces_app by exact Hs.
  cbn [Ascii.eqb Bool.eqb].
  replace (body ++ "}"%char :: ";"%char :: rest)
    with ((body ++ ["}"%char]) ++ ";"%char :: rest)
    by now rewrite <- app_assoc.
  rewrite span_not_semicolon_app.
  - rewrite rev_app_distr. cbn [rev app].
    destruct (rev body) as [| g g'] eqn:E.
    + apply (f_equal (@rev ascii)) in E. rewrite rev_involutive in E.
      contradiction.
    + cbn [Ascii.eqb Bool.eqb].
      change (rev g' ++ [g]) with (rev (g :: g')).
      now rewrite <- E, rev_involutive.
  - apply Forall_app. split; [exact Hb |]. constructor; [discriminate |].
    constructor.
Qed.

Lemma first_assignment_skips (mid rest : list ascii) :
  Forall (fun c => c <> "="%char) mid ->
  re.first_assignment (mid ++ rest) = re.first_assignment rest.
Proof.
  induction 1 as [| c mid Hc _ IH]; [reflexivity |].
  cbn [app re.first_assignment].
  replace (re.match_assignment (c :: mid ++ rest)) with (@None (list ascii)).
  - exact IH.
  - unfold re.match_assignment.
    now destruct (Ascii.eqb_spec c "="%char) as [E | _]; [contradiction |].
Qed.

Lemma first_assignment_here (s g : list ascii) :
  re.match_assignment s = Some g -> re.first_assignment s = Some g.
Proof.
  intros H. destruct s; cbn [re.first_assignment]; now rewrite H.
Qed.

(** X9: the search finds the body of the array: after the name, anything without
    an equals sign, the equals sign, white space and the opening brace, the
    group is the text up to the closing brace that precedes the first
    semicolon. *)
Theorem search_data_section_finds (mid spaces body rest : list ascii) :
  Forall (fun c => c <> "="%char) mid ->
  Forall (fun c => re.is_space c = true) spaces ->
  Forall (fun c => c <> ";"%char) body ->
  body <> [] ->
  re.search_data_section
    (list_ascii_of_string "ppg_waveforms_data[]" ++ mid ++ "="%char :: spaces
     ++ "{"%char :: body ++ "}"%char :: ";"%char :: rest)
  = Some body.
Proof.
  intros Hm Hs Hb Hne. unfold re.search_data_section.
  rewrite after_first_here, first_assignment_skips by exact Hm.
  now apply first_assignment_here, match_assignment_body.
Qed.

(** The declaration [ppg_waveforms_data[] PROGMEM = { 1, 2 };]. *)
Lemma search_data_section_finds_witness :
  re.search_data_section
    (list_ascii_of_string "ppg_waveforms_data[] PROGMEM = { 1, 2 }; int x;")
  = Some (list_ascii_of_string " 1, 2 ").
Proof.
  apply (search_data_section_finds
           (list_ascii_of_string " PROGMEM ") (list_ascii_of_string " ")
           (list_ascii_of_string " 1, 2 ") (list_ascii_of_string " int x;")).
  - repeat constructor; discriminate.
  - repeat constructor.
  - repeat constructor; discriminate.
  - discriminate.
Defined.

Lemma span_not_semicolon_run (s : list ascii) :
  Forall (fun c => c <> ";"%char) (fst (re.span_not_semicolon s)).
Proof.
  induction s as [| c s IH]; [constructor |].
  cbn [re.span_not_semicolon].
  destruct (Ascii.eqb_spec c ";"%char) as [E | N]; [constructor |].
  destruct (re.span_not_semicolon s) as [run rest]. cbn [fst] in *.
  now constructor.
Qed.

Lemma match_assignment_shape (s g : list ascii) :
  re.match_assignment s = Some g ->
  g <> [] /\ Forall (fun c => c <> ";"%char) g.
Proof.
  unfold re.match_assignment. destruct s as [| c s1]; [discriminate |].
  destruct (Ascii.eqb c "="%char); [| discriminate].
  destruct (re.skip_spaces s1) as [| b s2]; [discriminate |].
  destruct (Ascii.eqb b "{"%char); [| discriminate].
  pose proof (span_not_semicolon_run s2) as Hrun.
  destruct (re.span_not_semicolon s2) as [run rest]. cbn [fst] in Hrun.
  destruct rest as [| r rest]; [destruct (rev run); discriminate |].
  destruct (rev run) as [| e [| x g']] eqn:E; try discriminate.
  destruct (Ascii.eqb e "}"%char); [| discriminate].
  intros H.
  assert (Hg : g = rev (x :: g')) by now injection H.
  subst g. split.
  - intros N. apply (f_equal (@rev ascii)) in N.
    rewrite rev_involutive in N. discriminate.
  - apply Forall_rev.
    apply Forall_rev in Hrun. rewrite E in Hrun.
    now inversion Hrun.
Qed.

(** X10: whatever the search returns is not empty and holds no semicolon. *)
Theorem search_data_section_shape (content : list ascii) :
  match re.search_data_section content with
  | Some data => data <> [] /\ Forall (fun c => c <> ";"%char) data
  | None => True
  end.
Proof.
  unfold re.search_data_section.
  destruct (re.after_first _ content) as [r |]; [| exact I].
  destruct (re.first_assignment r) as [data |] eqn:E; [| exact I].
  induction r as [| c r IH].
  - cbn in E. discriminate.
  - cbn [re.first_assignment] in E.
    destruct (re.match_assignment (c :: r)) as [g |] eqn:M.
    + injection E as <-. now apply match_assignment_shape in M.
    + now apply IH.
Qed.

(** ** Range of the samples and the fallback of the assembler *)

Lemma clip_astype_int16 (a : list Qc) :
  Forall (fun s => -32767 <= s <= 32767)
         (np.astype_int16 (np.clip a (-32767) 32767)).
Proof.
  unfold np.astype_int16, np.clip. rewrite map_map.
  apply Forall_forall. intros s Hs. apply in_map_iff in Hs.
  destruct Hs as [v [<- _]].
  destruct (clip1_between (-32767) 32767 v) as [H1 H2]; [lia |].
  now apply trunc_between.
Qed.

Lemma integrate_wave_int16 (wave : list Qc) (out : list Z) :
  integrate_wave wave = Ok out ->
  Forall (fun s => -32767 <= s <= 32767) out.
Proof.
  unfold integrate_wave.
  destruct (remove_drift wave) as [a | e]; [| discriminate].
  destruct (normalize a) as [b | e]; [| discriminate].
  intros [= <-]. apply clip_astype_int16.
Qed.

(** X11: whatever the waveform set, the mode and the index: a slot the assembler
    processes holds samples of the signed 16-bit range without -32768, guard
    included, and processing a slot, successful or not, changes no file. *)
Theorem process_wave_int16 (waveforms : list (list Z)) (integrate : bool)
    (name : string) (i : nat) (idx : Z) (w : world) :
  match process_wave waveforms integrate name i idx w with
  | (Ok e, w') =>
      Forall (fun s => -32767 <= s <= 32767) (wave_samples e)
      /\ files w' = files w
  | (Err _, w') => files w' = files w
  end.
Proof.
  unfold process_wave.
  set (pick := if Z.of_nat (List.length waveforms) <=? idx then _ else _).
  assert (Hpick : exists idx' w1, pick w = (Ok idx', w1) /\ files w1 = files w).
  { unfold pick. destruct (Z.of_nat (List.length waveforms) <=? idx).
    - eexists _, _. split; [unfold bind, print, ret; reflexivity | reflexivity].
    - eexists _, _. split; [unfold ret; reflexivity | reflexivity]. }
  destruct Hpick as [idx' [w1 [Hp Hf]]].
  unfold bind at 1. rewrite Hp.
  unfold bind at 1. unfold lift at 1.
  destruct (py.getitem waveforms idx') as [raw | e]; [| exact Hf].
  unfold bind at 1. unfold lift at 1.
  destruct (interpolate_wave (convert_to_signed16 raw) TARGET_SAMPLES)
    as [interpolated | e]; [| exact Hf].
  unfold bind at 1. unfold lift at 1.
  assert (Hb : forall processed,
             (if integrate then integrate_wave interpolated
              else Ok (np.astype_int16 (np.clip interpolated (-32767) 32767)))
             = Ok processed ->
             Forall (fun s => -32767 <= s <= 32767) processed).
  { intros processed. destruct integrate.
    - apply integrate_wave_int16.
    - intros [= <-]. apply clip_astype_int16. }
  destruct (if integrate then _ else _) as [processed | e]; [| exact Hf].
  unfold ret. cbn [wave_samples]. split; [| exact Hf].
  unfold add_guard_samples. apply Forall_app. split.
  - now apply Hb.
  - specialize (Hb processed eq_refl).
    rewrite <- (firstn_skipn GUARD_SAMPLES processed) in Hb.
    now apply Forall_app in Hb.
Qed.

(** X12: an index at or past the number of waveforms is served exactly as index
    0 is, after one line of warning: same array name, same source, same
    samples, same outcome. *)
Theorem process_wave_fallback (waveforms : list (list Z)) (integrate : bool)
    (name : string) (i : nat) (idx : Z) (w : world) :
  waveforms <> [] ->
  Z.of_nat (List.length waveforms) <= idx ->
  process_wave waveforms integrate name i idx w
  = process_wave waveforms integrate name i 0 (emit [warning_line idx] w).
Proof.
  intros Hne Hidx. unfold process_wave.
  replace (Z.of_nat (List.length waveforms) <=? idx) with true
    by (symmetry; now apply Z.leb_le).
  replace (Z.of_nat (List.length waveforms) <=? 0) with false.
  - unfold bind at 1. unfold bind at 1. unfold print at 1. unfold ret at 1.
    unfold bind at 3. unfold ret at 2. reflexivity.
  - symmetry. apply Z.leb_gt. destruct waveforms; [congruence |].
    cbn [List.length]. lia.
Qed.

(** One flat waveform and the configured index 5. *)
Lemma process_wave_fallback_witness :
  process_wave [constant_wave 128] false "UPPER_WT" 5 5 empty_world
  = process_wave [constant_wave 128] false "UPPER_WT" 5 0
                 (emit [warning_line 5] empty_world).
Proof.
  apply (process_wave_fallback [constant_wave 128] false "UPPER_WT" 5 5
                               empty_world).
  - discriminate.
  - cbn. lia.
Defined.

(** X13: the resampler accepts every waveform of 64 samples and returns 256
    values for it. *)
Theorem interpolate_wave_table_size (wave : list Z) :
  List.length wave = PPG_SAMPLES ->
  exists out,
    interpolate_wave (convert_to_signed16 wave) TARGET_SAMPLES = Ok out
    /\ List.length out = TARGET_SAMPLES.
Proof.
  intros H.
  destruct (interpolate_wave_succeeds (convert_to_signed16 wave)) as [out Ho].
  - unfold convert_to_signed16, np.astype_int16, np.clip, np.astype_float64.
    now rewrite !length_map.
  - exists out. split; [exact Ho |]. now apply interpolate_wave_length in Ho.
Qed.

Lemma interpolate_wave_table_size_witness :
  exists out,
    interpolate_wave (convert_to_signed16 (constant_wave 200)) TARGET_SAMPLES
    = Ok out
    /\ List.length out = TARGET_SAMPLES.
Proof.
  apply (interpolate_wave_table_size (constant_wave 200)). reflexivity.
Defined.

(** ** What a run leaves behind *)


(** X15: the generator writes all of the output file or nothing of it: when it
    returns, the output file holds the generated text and every other file
    is as before; when it raises, every file is as before.  In both cases
    the lines printed earlier stay, followed by the lines of this run. *)
Theorem generate_wavetables_h_all_or_nothing (waveforms : list (list Z))
    (output_path : string) (integrate : bool) (w : world) :
  let run := generate_wavetables_h waveforms output_path integrate w in
  (exists lines, stdout (snd run) = (stdout w ++ lines)%list)
  /\ match fst run with
     | Ok _ =>
         exists text, forall p,
           files (snd run) p
           = if String.eqb p output_path then Some text else files w p
     | Err _ => files (snd run) = files w
     end.
Proof.
  destruct (generate_wavetables_h_run waveforms output_path integrate)
    as [r [lines [written [Hr Hrun]]]].
  cbv zeta. rewrite Hrun. cbn [fst snd after_run files stdout].
  split; [now exists lines |].
  destruct r as [[] | e].
  - destruct written as [text |].
    + now exists text.
    + exfalso. now apply (proj1 Hr).
  - destruct written as [text |]; [| reflexivity].
    assert (H : Err e = Ok tt) by (apply Hr; discriminate). discriminate.
Qed.

(** X17: without [ppg_data.c] the script prints one line of error and exits with
    status 1; it raises nothing and writes nothing. *)
Theorem main_missing_source (script_dir : string) (w : world) :
  files w (script_dir ++ "/ppg_data.c")%string = None ->
  main script_dir w
  = (Ok 1,
     emit [("Error: " ++ (script_dir ++ "/ppg_data.c") ++ " not found")%string]
          w).
Proof.
  intros H. unfold main. unfold bind at 1. unfold exists_file. rewrite H.
  cbn [negb]. unfold bind, print, ret, emit. reflexivity.
Qed.

Lemma main_missing_source_witness :
  main "/vapo2" empty_world
  = (Ok 1, emit ["Error: /vapo2/ppg_data.c not found"%string] empty_world).
Proof.
  apply (main_missing_source "/vapo2" empty_world). reflexivity.
Defined.

(** X18: a source that holds no array of the expected shape stops the script with
    [ValueError] after its first line of output; nothing is written. *)
Theorem main_no_array (script_dir content : string) (w : world) :
  files w (script_dir ++ "/ppg_data.c")%string = Some content ->
  re.search_data_section (list_ascii_of_string content) = None ->
  main script_dir w
  = (Err ValueError, emit ["Parsing PPG waveform data..."%string] w).
Proof.
  intros Hw Hs. unfold main. unfold bind at 1. unfold exists_file. rewrite Hw.
  cbn [negb]. unfold bind at 1. unfold print at 1.
  unfold bind at 1. unfold parse_ppg_waveforms.
  unfold bind at 1. unfold read_file. cbn [files]. rewrite Hw, Hs.
  unfold raise, emit. reflexivity.
Qed.

(** The array is declared but not defined. *)
Lemma main_no_array_witness :
  let w :=
    World (fun p =>
             if String.eqb p "/vapo2/ppg_data.c"
             then Some "extern const unsigned char ppg_waveforms_data[];"%string
             else None)
          [] in
  main "/vapo2" w
  = (Err ValueError, emit ["Parsing PPG waveform data..."%string] w).
Proof.
  cbv zeta.
  apply (main_no_array "/vapo2"
           "extern const unsigned char ppg_waveforms_data[];"
           (World (fun p =>
                     if String.eqb p "/vapo2/ppg_data.c"
                     then Some "extern const unsigned char ppg_waveforms_data[];"%string
                     else None)
                  [])).
  - reflexivity.
  - reflexivity.
Defined.

Lemma warnings_for_range (count m : nat) :
  warnings_for count (map Z.of_nat (seq 0 m))
  = map (fun k => warning_line (Z.of_nat k)) (seq count (m - count)).
Proof.
  unfold warnings_for. induction m as [| m IH]; [reflexivity |].
  rewrite seq_S, map_app, flat_map_app, IH. cbn [Nat.add map flat_map].
  rewrite app_nil_r.
  destruct (Z.leb_spec (Z.of_nat count) (Z.of_nat m)) as [H | H].
  - replace (S m - count)%nat with (S (m - count)) by lia.
    rewrite seq_S, map_app. cbn [map].
    now replace (count + (m - count))%nat with m by lia.
  - replace (S m - count)%nat with 0%nat by lia.
    replace (m - count)%nat with 0%nat by lia. reflexivity.
Qed.

(** X16: with [n] waveforms of 64 samples extracted, [n] at least 1, the generator
    completes in either mode; it prints one warning for each configured index
    from [n] to 127, in ascending order, then the two closing lines, and
    writes the output file. *)
Theorem generate_wavetables_h_warnings (waveforms : list (list Z))
    (integrate : bool) (output_path : string) (w : world) :
  waveforms <> [] ->
  Forall (fun wave => List.length wave = PPG_SAMPLES) waveforms ->
  exists text,
    generate_wavetables_h waveforms output_path integrate w
    = (Ok tt,
       after_run output_path
         (map (fun k => warning_line (Z.of_nat k))
              (seq (List.length waveforms) (128 - List.length waveforms))
          ++ [("Generated " ++ output_path)%string; size_report])
         (Some text) w).
Proof.
  intros Hne Hlen.
  destruct (generate_wavetables_h_completes waveforms integrate Hne Hlen
                                            output_path)
    as [banks [head [_ [_ [_ [_ Hrun]]]]]].
  eexists. rewrite Hrun.
  change (List.concat (map snd BANK_SELECTIONS))
    with (map Z.of_nat (seq 0 128)).
  now rewrite warnings_for_range.
Qed.

(** One flat waveform: 127 warnings. *)
Lemma generate_wavetables_h_warnings_witness :
  exists text,
    generate_wavetables_h [constant_wave 128] "wavetables.h" true empty_world
    = (Ok tt,
       after_run "wavetables.h"
         (map (fun k => warning_line (Z.of_nat k)) (seq 1 127)
          ++ ["Generated wavetables.h"%string; size_report])
         (Some text) empty_world).
Proof.
  apply (generate_wavetables_h_warnings [constant_wave 128] true
                                        "wavetables.h" empty_world).
  - discriminate.
  - repeat constructor.
Defined.

(** A source with one waveform of 64 samples. *)
Lemma main_completes_witness :
  let data := List.concat (repeat (list_ascii_of_string " 128,") 64) in
  let content :=
    string_of_list_ascii
      (list_ascii_of_string "const unsigned char ppg_waveforms_data[] = {"
       ++ data ++ list_ascii_of_string "};") in
  let w :=
    World (fun p => if String.eqb p "/vapo2/ppg_data.c" then Some content
                    else None) [] in
  exists lines text,
    main "/vapo2" w
    = (Ok 0, after_run "/vapo2/wavetables.h" lines (Some text) w).
Proof.
  intros data content w.
  apply (main_completes "/vapo2" content data w).
  - reflexivity.
  - vm_compute. reflexivity.
  - apply Forall_forall. intros line Hl. apply Nat.leb_le.
    revert line Hl. apply forallb_forall. vm_compute. reflexivity.
  - apply Nat.leb_le. vm_compute. reflexivity.
  - apply fits_uint8_bytes. vm_compute. reflexivity.
Defined.
